(** * venn-backend: the session voting and aggregation engine

    A shallow embedding of the request handlers of [src/server.js]
    ([/join-session], [/swipe-option], [/session-result]) over the documents
    declared in [src/models/Session.js] and the User model.

    Scope of the model.
    - The two MongoDB collections are finite maps from a document's [_id] to
      the document's fields.  [Model.findById] is a lookup, [doc.save()]
      writes the handler's in-memory copy back under the same [_id].
    - Identifiers are the canonical (lower-case hex) text of an ObjectId, and
      a request field is either absent or a string.  Requests whose ids
      Mongoose cannot cast make the library throw; the handlers' [catch]
      turns that into a 500 answer, which is not represented here.
    - Mongoose bookkeeping ([__v], [createdAt], [updatedAt], the [_id] of
      subdocuments) is left out.
    - A handler works on the copy of the document that [findById] gives it;
      the collection changes only at [save()]. *)

From stdpp Require Import base list strings gmap.
From Stdlib Require Import Ascii Sorting.Sorted Sorting.Permutation.

Local Open Scope string_scope.

(** ** JavaScript [Map] with string keys

    A [Map] iterates in insertion order and [set] on a present key keeps the
    key's position, so a map is the list of its entries in that order. *)
Module JsMap.

Abbreviation t V := (list (string * V)).

Definition empty {V} : t V := [].

Fixpoint get {V} (k : string) (m : t V) : option V :=
  match m with
  | [] => None
  | (k', v) :: m' => if decide (k' = k) then Some v else get k m'
  end.

Fixpoint set {V} (k : string) (v : V) (m : t V) : t V :=
  match m with
  | [] => [(k, v)]
  | (k', v') :: m' =>
      if decide (k' = k) then (k', v) :: m' else (k', v') :: set k v m'
  end.

Definition keys {V} (m : t V) : list string := m.*1.

(** What a [Map] guarantees: no key occurs twice. *)
Definition wf {V} (m : t V) : Prop := NoDup (keys m).

End JsMap.

(** ** Documents *)

Abbreviation ObjectId := string (only parsing).

Inductive Status := Pending | Active | Completed | Cancelled.

(** The schema stores the status as one of four strings. *)
Definition statusText (s : Status) : string :=
  match s with
  | Pending => "Pending"
  | Active => "Active"
  | Completed => "Completed"
  | Cancelled => "Cancelled"
  end.

Record SessionOption := {
  optionId : string;
  description : string;
  yesVotes : Z;
  noVotes : Z
}.

Record UserSwipe := {
  userId : ObjectId;
  optionSwipes : JsMap.t string
}.

Record Session := {
  sessionId : string;
  title : string;
  createdBy : option ObjectId;
  users : list ObjectId;
  options : list SessionOption;
  status : Status;
  swipes : list UserSwipe
}.

Module User.
Record t := {
  userId : string;
  userName : string;
  email : string;
  createdSessions : list ObjectId;
  joinedSessions : list ObjectId
}.
End User.

(** The database: both collections, keyed by [_id]. *)
Record Db := {
  Sessions : gmap string Session;
  Users : gmap string User.t
}.

(** ** Requests and responses *)

Record JoinBody := {
  join_sessionId : option string;
  join_userId : option string
}.

Record SwipeBody := {
  swipe_sessionId : option string;
  swipe_userId : option string;
  swipe_optionId : option string;
  swipe_swipeAction : option string
}.

Inductive Json :=
| ErrorJson (error : string)
| JoinedJson (message : string) (session : Session)
| SwipesJson (message : string) (swipes : JsMap.t string)
| UnanimousJson (message : string) (unanimousResults : list string)
    (allResults : list (string * nat))
| RankedJson (message : string) (allResults : list (string * nat)).

Record Response := {
  statusCode : nat;
  json : Json
}.

Definition respond (code : nat) (j : Json) : Response :=
  {| statusCode := code; json := j |}.

(** [!x] on a request field: an absent field and the empty string are falsy.
    [present] gives the value of a truthy field. *)
Definition present (v : option string) : option string :=
  match v with
  | Some "" => None
  | other => other
  end.

(** ** String helpers *)

Definition lowerAscii (c : ascii) : ascii :=
  let n := nat_of_ascii c in
  if ((65 <=? n) && (n <=? 90))%nat then ascii_of_nat (n + 32) else c.

Fixpoint toLowerCase (s : string) : string :=
  match s with
  | EmptyString => EmptyString
  | String c s' => String (lowerAscii c) (toLowerCase s')
  end.

(** The text [No "yes" swipes recorded] of line 200. *)
Definition noYesSwipes : string :=
  let q := String (ascii_of_nat 34) EmptyString in
  "No " ++ q ++ "yes" ++ q ++ " swipes recorded".

(** ** POST /join-session *)

Definition addUser (uid : ObjectId) (s : Session) : Session :=
  {| sessionId := sessionId s; title := title s; createdBy := createdBy s;
     users := users s ++ [uid]; options := options s; status := status s;
     swipes := swipes s |}.

Definition addJoined (sid : ObjectId) (u : User.t) : User.t :=
  {| User.userId := User.userId u; User.userName := User.userName u;
     User.email := User.email u;
     User.createdSessions := User.createdSessions u;
     User.joinedSessions := User.joinedSessions u ++ [sid] |}.

Definition joinSession (db : Db) (req : JoinBody) : Response * Db :=
  match present (join_sessionId req), present (join_userId req) with
  | Some sid, Some uid =>
      match Sessions db !! sid with
      | None => (respond 404 (ErrorJson "Session doesn't exist"), db)
      | Some session =>
          if bool_decide (statusText (status session) ∈ ["Completed"; "Cancelled"])
          then (respond 400
                  (ErrorJson ("Cannot join a "
                              ++ toLowerCase (statusText (status session))
                              ++ " session")), db)
          else
            match Users db !! uid with
            | None => (respond 404 (ErrorJson "User doesn't exist"), db)
            | Some user =>
                if bool_decide (uid ∈ users session)
                then (respond 400 (ErrorJson "User is already in the session"), db)
                else
                  let session' := addUser uid session in
                  let user' := addJoined sid user in
                  (respond 200
                     (JoinedJson "User successfully joined session" session'),
                   {| Sessions := <[sid := session']> (Sessions db);
                      Users := <[uid := user']> (Users db) |})
            end
      end
  | _, _ => (respond 400 (ErrorJson "sessionID and userID are required"), db)
  end.

(** ** POST /swipe-option *)

Definition withSwipes (sw : list UserSwipe) (s : Session) : Session :=
  {| sessionId := sessionId s; title := title s; createdBy := createdBy s;
     users := users s; options := options s; status := status s;
     swipes := sw |}.

(** [userSwipe.optionSwipes.set(optionId, swipeAction)] on the record that
    [session.swipes.find] returned: the first record of the user, which is a
    subdocument of the session and is changed in place. *)
Fixpoint setFirst (uid : ObjectId) (k v : string) (sw : list UserSwipe)
  : list UserSwipe :=
  match sw with
  | [] => []
  | r :: sw' =>
      if bool_decide (userId r = uid)
      then {| userId := userId r;
              optionSwipes := JsMap.set k v (optionSwipes r) |} :: sw'
      else r :: setFirst uid k v sw'
  end.

(** [session.swipes.push(userSwipe)], line 137.  The schema declares [swipes]
    as an array of subdocuments whose [optionSwipes] is a [Map] of strings
    (Session.js, lines 23-35), so [session.swipes] is a Mongoose document
    array.  Its [push] does not store the object it is given: it casts it,
    building a new subdocument, and for [optionSwipes] a new Mongoose map,
    from the field values the object has at the time of the call.  The array
    gets a copy; the object stays a plain object outside the document. *)
Definition pushSwipe (sw : list UserSwipe) (obj : UserSwipe) : list UserSwipe :=
  sw ++ [ {| userId := userId obj; optionSwipes := optionSwipes obj |} ].

Definition swipeOption (db : Db) (req : SwipeBody) : Response * Db :=
  match present (swipe_sessionId req), present (swipe_userId req),
        present (swipe_optionId req), present (swipe_swipeAction req) with
  | Some sid, Some uid, Some oid, Some action =>
      match Sessions db !! sid with
      | None => (respond 404 (ErrorJson "Session doesn't exist"), db)
      | Some session =>
          match find (fun user => bool_decide (user = uid)) (users session) with
          | None => (respond 404 (ErrorJson "User is not in session"), db)
          | Some _ =>
              if negb (bool_decide (action ∈ ["yes"; "no"]))
              then (respond 400 (ErrorJson "Invalid swipe action"), db)
              else
                match find (fun swipe => bool_decide (userId swipe = uid))
                           (swipes session) with
                | Some userSwipe =>
                    (* the record is part of the document: line 140 writes
                       into the session that is saved *)
                    let session' :=
                      withSwipes (setFirst uid oid action (swipes session)) session in
                    (respond 200
                       (SwipesJson "Swipe action recorded successfully"
                          (JsMap.set oid action (optionSwipes userSwipe))),
                     {| Sessions := <[sid := session']> (Sessions db);
                        Users := Users db |})
                | None =>
                    (* lines 136-137: a plain object is created and pushed;
                       line 140 then writes into that plain object's Map,
                       after the array has taken its copy *)
                    let userSwipe := {| userId := uid; optionSwipes := JsMap.empty |} in
                    let session' :=
                      withSwipes (pushSwipe (swipes session) userSwipe) session in
                    (respond 200
                       (SwipesJson "Swipe action recorded successfully"
                          (JsMap.set oid action (optionSwipes userSwipe))),
                     {| Sessions := <[sid := session']> (Sessions db);
                        Users := Users db |})
                end
          end
      end
  | _, _, _, _ =>
      (respond 400
         (ErrorJson "session ID, user ID, option ID and swipe action are required"),
       db)
  end.

(** ** GET /session-result *)

(** The inner [forEach] (lines 175-180): one pass over a user's entries. *)
Definition countYes (swipeCount : JsMap.t nat) (entries : JsMap.t string)
  : JsMap.t nat :=
  fold_left
    (fun acc entry =>
       if bool_decide (entry.2 = "yes")
       then JsMap.set entry.1 (default 0 (JsMap.get entry.1 acc) + 1) acc
       else acc)
    entries swipeCount.

(** The outer [forEach] (lines 174-181), starting from an empty [Map]. *)
Definition tally (sw : list UserSwipe) : JsMap.t nat :=
  fold_left (fun acc userSwipe => countYes acc (optionSwipes userSwipe))
            sw JsMap.empty.

(** Lines 183-187. *)
Definition unanimousOf (userCount : nat) (swipeCount : JsMap.t nat) : list string :=
  (filter (fun e => e.2 = userCount) swipeCount).*1.

(** [[...swipeCount].sort((a, b) => b[1] - a[1])]: [Array.prototype.sort]
    is stable, so entries with equal counts keep the order of the [Map]. *)
Fixpoint insertDesc (x : string * nat) (l : list (string * nat))
  : list (string * nat) :=
  match l with
  | [] => [x]
  | y :: l' =>
      if decide (x.2 < y.2) then y :: insertDesc x l' else x :: y :: l'
  end.

Definition sortDesc (l : list (string * nat)) : list (string * nat) :=
  foldr insertDesc [] l.

Definition resultOf (session : Session) : Response :=
  let swipeCount := tally (swipes session) in
  let userCount := length (users session) in
  let unanimousResults := unanimousOf userCount swipeCount in
  if bool_decide (0 < length unanimousResults)
  then respond 200
         (UnanimousJson "Unanimous decisions found" unanimousResults
            (sortDesc swipeCount))
  else
    let sortedSwipes := sortDesc swipeCount in
    if bool_decide (length sortedSwipes = 0)
    then respond 400 (ErrorJson noYesSwipes)
    else respond 200
           (RankedJson "No unanimous decisions; sorted yes swipes provided"
              sortedSwipes).

Definition sessionResult (db : Db) (sessionId : option string) : Response * Db :=
  match present sessionId with
  | None => (respond 400 (ErrorJson "Session ID is required"), db)
  | Some sid =>
      match Sessions db !! sid with
      | None => (respond 404 (ErrorJson "Session doesn't exist"), db)
      | Some session => (resultOf session, db)
      end
  end.

(** The Express router: one request, one handler. *)
Inductive Request :=
| PostJoinSession (body : JoinBody)
| PostSwipeOption (body : SwipeBody)
| GetSessionResult (sessionId : option string).

Definition app (db : Db) (rq : Request) : Response * Db :=
  match rq with
  | PostJoinSession body => joinSession db body
  | PostSwipeOption body => swipeOption db body
  | GetSessionResult q => sessionResult db q
  end.

(** ** What the specification counts

    The number of yes votes for an option, read off the ledger directly:
    the entries [optionId -> "yes"] over all swipe records. *)
Definition yesEntries (o : string) (entries : JsMap.t string) : nat :=
  length (filter (fun e => e.1 = o ∧ e.2 = "yes") entries).

Definition yesCount (o : string) (sw : list UserSwipe) : nat :=
  sum_list ((fun r => yesEntries o (optionSwipes r)) <$> sw).

(** An option is unanimous when it has a yes-counter (some yes vote) and the
    counter equals the number of members. *)
Definition unanimousOption (s : Session) (o : string) : Prop :=
  0 < yesCount o (swipes s) ∧ yesCount o (swipes s) = length (users s).

(** No yes vote anywhere in the ledger. *)
Definition noYesVote (sw : list UserSwipe) : Prop :=
  ∀ r e, r ∈ sw → e ∈ optionSwipes r → e.2 ≠ "yes".

Definition isUnanimous (r : Response) : bool :=
  match json r with
  | UnanimousJson _ _ _ => true
  | _ => false
  end.

Definition descending (a b : string * nat) : Prop := (b.2 ≤ a.2)%nat.

(** ** Notions used in the statements, and worked data *)

(** [swipeCount.get(optionId) || 0] *)
Definition cnt (o : string) (m : JsMap.t nat) : nat :=
  default 0 (JsMap.get o m).

(** The counter map is a [Map] and holds no zero. *)
Definition goodCounts (m : JsMap.t nat) : Prop :=
  JsMap.wf m ∧ Forall (fun e => 0 < e.2) m.

Definition allResultsOf (r : Response) : list (string * nat) :=
  match json r with
  | UnanimousJson _ _ all => all
  | RankedJson _ all => all
  | _ => []
  end.

(** All four fields of the body are truthy. *)
Definition swipeFields (req : SwipeBody) (sid uid oid act : string) : Prop :=
  present (swipe_sessionId req) = Some sid ∧
  present (swipe_userId req) = Some uid ∧
  present (swipe_optionId req) = Some oid ∧
  present (swipe_swipeAction req) = Some act.

Definition voted (oid act : string) (r : UserSwipe) : UserSwipe :=
  {| userId := userId r; optionSwipes := JsMap.set oid act (optionSwipes r) |}.

Definition savedSession (db : Db) (sid : string) (s : Session) : Db :=
  {| Sessions := <[sid := s]> (Sessions db); Users := Users db |}.

(** The paths through the handler, one constructor per [return]. *)
Inductive SwipeOutcome (db : Db) (req : SwipeBody) : Response * Db → Prop :=
| SwipeMissingField :
    (present (swipe_sessionId req) = None ∨ present (swipe_userId req) = None ∨
     present (swipe_optionId req) = None ∨ present (swipe_swipeAction req) = None) →
    SwipeOutcome db req
      (respond 400
         (ErrorJson "session ID, user ID, option ID and swipe action are required"),
       db)
| SwipeNoSession sid uid oid act :
    swipeFields req sid uid oid act →
    Sessions db !! sid = None →
    SwipeOutcome db req (respond 404 (ErrorJson "Session doesn't exist"), db)
| SwipeNotMember sid uid oid act s :
    swipeFields req sid uid oid act →
    Sessions db !! sid = Some s →
    uid ∉ users s →
    SwipeOutcome db req (respond 404 (ErrorJson "User is not in session"), db)
| SwipeInvalidAction sid uid oid act s :
    swipeFields req sid uid oid act →
    Sessions db !! sid = Some s →
    uid ∈ users s →
    act ∉ ["yes"; "no"] →
    SwipeOutcome db req (respond 400 (ErrorJson "Invalid swipe action"), db)
| SwipeUpdated sid uid oid act s i r :
    swipeFields req sid uid oid act →
    Sessions db !! sid = Some s →
    uid ∈ users s →
    act ∈ ["yes"; "no"] →
    swipes s !! i = Some r →
    userId r = uid →
    (∀ j r', j < i → swipes s !! j = Some r' → userId r' ≠ uid) →
    SwipeOutcome db req
      (respond 200
         (SwipesJson "Swipe action recorded successfully"
            (JsMap.set oid act (optionSwipes r))),
       savedSession db sid (withSwipes (<[i := voted oid act r]> (swipes s)) s))
| SwipeCreated sid uid oid act s :
    swipeFields req sid uid oid act →
    Sessions db !! sid = Some s →
    uid ∈ users s →
    act ∈ ["yes"; "no"] →
    (∀ r, r ∈ swipes s → userId r ≠ uid) →
    SwipeOutcome db req
      (respond 200
         (SwipesJson "Swipe action recorded successfully" [(oid, act)]),
       savedSession db sid
         (withSwipes (swipes s ++ [ {| userId := uid; optionSwipes := [] |} ]) s)).

Definition joinFields (req : JoinBody) (sid uid : string) : Prop :=
  present (join_sessionId req) = Some sid ∧
  present (join_userId req) = Some uid.

Definition alice : string := "64f1a0000000000000000001".
Definition bob : string := "64f1a0000000000000000002".
Definition carol : string := "64f1a0000000000000000003".

Definition dinner : string := "64f1b0000000000000000001".
Definition lunch : string := "64f1b0000000000000000002".
Definition brunch : string := "64f1b0000000000000000003".
Definition picnic : string := "64f1b0000000000000000004".
Definition supper : string := "64f1b0000000000000000005".

Definition mkSession (us : list string) (st : Status) (sw : list UserSwipe)
  : Session :=
  {| sessionId := "0c0ffee0-0000-4000-8000-000000000000"; title := "Test";
     createdBy := None; users := us; options := []; status := st;
     swipes := sw |}.

Definition mkUser (name : string) : User.t :=
  {| User.userId := "0c0ffee0-0000-4000-8000-00000000000a";
     User.userName := name; User.email := name +:+ "@example.com";
     User.createdSessions := []; User.joinedSessions := [] |}.

(** Two members, A with two yes votes and B with one (section 8 of the
    specification). *)
Definition dinnerSession : Session :=
  mkSession [alice; bob] Pending
    [ {| userId := alice; optionSwipes := [("A", "yes"); ("B", "yes")] |};
      {| userId := bob; optionSwipes := [("A", "yes"); ("B", "no")] |} ].

(** One member who has not swiped yet. *)
Definition lunchSession : Session := mkSession [alice] Pending [].

(** A closed session. *)
Definition brunchSession : Session := mkSession [] Completed [].

(** No member, but a yes vote in the ledger. *)
Definition picnicSession : Session :=
  mkSession [] Pending [ {| userId := alice; optionSwipes := [("A", "yes")] |} ].

(** No votes only. *)
Definition supperSession : Session :=
  mkSession [alice] Pending
    [ {| userId := alice; optionSwipes := [("A", "no"); ("B", "no")] |} ].

Definition exampleDb : Db :=
  {| Sessions :=
       <[dinner := dinnerSession]>
         (<[lunch := lunchSession]>
            (<[brunch := brunchSession]>
               (<[picnic := picnicSession]>
                  (<[supper := supperSession]> ∅))));
     Users := <[alice := mkUser "alice"]> (<[bob := mkUser "bob"]> ∅) |}.

Definition swipeReq (sid uid oid act : string) : SwipeBody :=
  {| swipe_sessionId := Some sid; swipe_userId := Some uid;
     swipe_optionId := Some oid; swipe_swipeAction := Some act |}.

Definition joinReq (sid uid : string) : JoinBody :=
  {| join_sessionId := Some sid; join_userId := Some uid |}.

(** ** POST /create-session and POST /create-user

    The two handlers that create documents.  What they draw from outside the
    program is an argument here: the [_id] MongoDB gives the new document
    and the text [uuidv4()] returns. *)

Record CreateSessionBody := {
  create_title : option string;
  create_userId : option string
}.

Record CreateUserBody := {
  new_userName : option string;
  new_email : option string;
  new_password : option string
}.

Inductive Created :=
| CreateError (error : string)
| SessionCreated (message : string) (id : ObjectId) (session : Session)
    (inviteLink : string)
| UserCreated (message : string) (id : ObjectId) (userName email : string).

Record CreateResponse := {
  createStatus : nat;
  createJson : Created
}.

Definition respondCreate (code : nat) (j : Created) : CreateResponse :=
  {| createStatus := code; createJson := j |}.

Definition addCreated (sid : ObjectId) (u : User.t) : User.t :=
  {| User.userId := User.userId u; User.userName := User.userName u;
     User.email := User.email u;
     User.createdSessions := User.createdSessions u ++ [sid];
     User.joinedSessions := User.joinedSessions u |}.

(** The document of lines 33-40; [swipes] takes the schema's default. *)
Definition newSession (uuid t : string) (uid : ObjectId) : Session :=
  {| sessionId := uuid; title := t; createdBy := Some uid; users := [uid];
     options := []; status := Pending; swipes := [] |}.

Definition createSession (newId uuid : string) (db : Db)
    (req : CreateSessionBody) : CreateResponse * Db :=
  match present (create_title req), present (create_userId req) with
  | Some t, Some uid =>
      match Users db !! uid with
      | None => (respondCreate 404 (CreateError "User doesn't exist"), db)
      | Some user =>
          let session := newSession uuid t uid in
          (respondCreate 201
             (SessionCreated "Session was created successfully" newId session
                ("http://localhost:3000/join/" +:+ sessionId session)),
           {| Sessions := <[newId := session]> (Sessions db);
              Users := <[uid := addCreated newId user]> (Users db) |})
      end
  | _, _ => (respondCreate 400 (CreateError "Invalid title or user ID"), db)
  end.

(** [User.findOne({ $or: [{ userName }, { email }] })]: only whether a
    document matches is used. *)
Definition taken (name mail : string) (us : gmap string User.t) : bool :=
  existsb (fun u => bool_decide (User.userName u = name)
                    || bool_decide (User.email u = mail))
          (map_to_list us).*2.

(** The stored user has the fields the User schema declares; the hashed
    password is passed to the model, which has no such path. *)
Definition newUser (uuid name mail : string) : User.t :=
  {| User.userId := uuid; User.userName := name; User.email := mail;
     User.createdSessions := []; User.joinedSessions := [] |}.

Definition createUser (newId uuid : string) (db : Db) (req : CreateUserBody)
  : CreateResponse * Db :=
  match present (new_userName req), present (new_email req),
        present (new_password req) with
  | Some name, Some mail, Some _ =>
      if taken name mail (Users db)
      then (respondCreate 400 (CreateError "Username or email already taken."),
            db)
      else
        (respondCreate 201
           (UserCreated "User created successfully" newId name mail),
         {| Sessions := Sessions db;
            Users := <[newId := newUser uuid name mail]> (Users db) |})
  | _, _, _ =>
      (respondCreate 400
         (CreateError "Username, email, and password are required."), db)
  end.

(** All five routes of the server.  A creating request comes with the ids
    it is going to draw. *)
Inductive Route :=
| Core (rq : Request)
| PostCreateSession (newId uuid : string) (body : CreateSessionBody)
| PostCreateUser (newId uuid : string) (body : CreateUserBody).

Definition serve (db : Db) (rt : Route) : (Response + CreateResponse) * Db :=
  match rt with
  | Core rq => (inl (app db rq).1, (app db rq).2)
  | PostCreateSession newId uuid body =>
      (inr (createSession newId uuid db body).1,
       (createSession newId uuid db body).2)
  | PostCreateUser newId uuid body =>
      (inr (createUser newId uuid db body).1, (createUser newId uuid db body).2)
  end.

(** MongoDB never hands out an [_id] that is in use. *)
Definition freshRoute (db : Db) (rt : Route) : Prop :=
  match rt with
  | Core _ => True
  | PostCreateSession newId _ _ => Sessions db !! newId = None
  | PostCreateUser newId _ _ => Users db !! newId = None
  end.

(** ** Invariants of the store *)

(** Within a session: no user joined twice, one swipe record per user at
    most, records of members only, and every vote map a [Map]. *)
Definition sessionOk (s : Session) : Prop :=
  NoDup (users s) ∧
  NoDup (userId <$> swipes s) ∧
  (∀ r, r ∈ swipes s → userId r ∈ users s) ∧
  Forall (fun r => JsMap.wf (optionSwipes r)) (swipes s).


(** The references between the two collections: the session lists of a user
    name sessions that have the user as a member (as creator, for the created
    ones), and every member of a session is a user whose lists name the
    session. *)
Definition refsOk (db : Db) : Prop :=
  (∀ uid u sid, Users db !! uid = Some u → sid ∈ User.joinedSessions u →
     ∃ s, Sessions db !! sid = Some s ∧ uid ∈ users s) ∧
  (∀ uid u sid, Users db !! uid = Some u → sid ∈ User.createdSessions u →
     ∃ s, Sessions db !! sid = Some s ∧ createdBy s = Some uid ∧ uid ∈ users s) ∧
  (∀ sid s uid, Sessions db !! sid = Some s → uid ∈ users s →
     ∃ u, Users db !! uid = Some u ∧
          (sid ∈ User.joinedSessions u ∨ sid ∈ User.createdSessions u)).

(** No two users share a name or an email. *)
Definition uniqueUsers (db : Db) : Prop :=
  ∀ i j u v, Users db !! i = Some u → Users db !! j = Some v →
    User.userName u = User.userName v ∨ User.email u = User.email v → i = j.

Definition openStatus (st : Status) : Prop :=
  st ≠ Completed ∧ st ≠ Cancelled.

Definition dave : string := "64f1a0000000000000000004".
Definition tea : string := "64f1b0000000000000000006".

Definition createSessionReq (t uid : string) : CreateSessionBody :=
  {| create_title := Some t; create_userId := Some uid |}.

Definition createUserReq (name mail pw : string) : CreateUserBody :=
  {| new_userName := Some name; new_email := Some mail;
     new_password := Some pw |}.

(** The votes the store holds for a user: those of the user's first swipe
    record, none without a record. *)
Definition storedVote (uid o : string) (s : Session) : option string :=
  match find (fun swipe => bool_decide (userId swipe = uid)) (swipes s) with
  | Some r => JsMap.get o (optionSwipes r)
  | None => None
  end.

(** Serving a sequence of requests. *)
Definition run (db : Db) (rts : list Route) : Db :=
  fold_left (fun d rt => (serve d rt).2) rts db.

(** Along the sequence every creating request draws an unused [_id]. *)
Fixpoint freshRun (db : Db) (rts : list Route) : Prop :=
  match rts with
  | [] => True
  | rt :: rts' => freshRoute db rt ∧ freshRun (serve db rt).2 rts'
  end.

Definition emptyDb : Db := {| Sessions := ∅; Users := ∅ |}.

Definition userFields (req : CreateUserBody) (name mail pw : string) : Prop :=
  present (new_userName req) = Some name ∧
  present (new_email req) = Some mail ∧
  present (new_password req) = Some pw.

Definition sessionFields (req : CreateSessionBody) (t uid : string) : Prop :=
  present (create_title req) = Some t ∧
  present (create_userId req) = Some uid.

(** Dave signs up, opens a session, and swipes twice on one option. *)
Definition teaTime : list Route :=
  [ PostCreateUser dave "0c0ffee0-0000-4000-8000-00000000000d"
      (createUserReq "dave" "dave@example.com" "secret");
    PostCreateSession tea "0c0ffee0-0000-4000-8000-0000000000e0"
      (createSessionReq "Tea" dave);
    Core (PostSwipeOption (swipeReq tea dave "scones" "yes"));
    Core (PostSwipeOption (swipeReq tea dave "scones" "yes")) ].

(** * Lemmas on [JsMap] *)
Section JsMapFacts.
Context {V : Type}.
Implicit Types (m : JsMap.t V) (k : string) (v : V).

Lemma get_set_eq m k v : JsMap.get k (JsMap.set k v m) = Some v.
Proof.
  induction m as [|[k' v'] m IH]; simpl.
  - by rewrite decide_True.
  - destruct (decide (k' = k)) as [->|Hne]; simpl.
    + by rewrite decide_True.
    + by rewrite decide_False.
Qed.

Lemma get_set_ne m k k' v :
  k ≠ k' → JsMap.get k' (JsMap.set k v m) = JsMap.get k' m.
Proof.
  intros Hne. induction m as [|[k0 v0] m IH]; simpl.
  - by rewrite decide_False.
  - destruct (decide (k0 = k)) as [->|Hk]; simpl.
    + by rewrite !decide_False.
    + destruct (decide (k0 = k')); [done | apply IH].
Qed.

Lemma keys_set m k v :
  JsMap.keys (JsMap.set k v m)
  = if decide (k ∈ JsMap.keys m) then JsMap.keys m
    else (JsMap.keys m ++ [k])%list.
Proof.
  unfold JsMap.keys. induction m as [|[k0 v0] m IH]; [done |].
  cbn [JsMap.set]. destruct (decide (k0 = k)) as [->|Hk]; rewrite !fmap_cons.
  - rewrite decide_True; [done | apply elem_of_cons; by left].
  - rewrite IH. cbn [fst]. destruct (decide (k ∈ m.*1)) as [Hin|Hnin].
    + rewrite decide_True; [done | apply elem_of_cons; by right].
    + rewrite decide_False; [done |].
      intros [?|?]%elem_of_cons; congruence.
Qed.

Lemma wf_set m k v : JsMap.wf m → JsMap.wf (JsMap.set k v m).
Proof.
  unfold JsMap.wf. rewrite keys_set. intros Hm.
  destruct (decide (k ∈ JsMap.keys m)); [done |].
  apply NoDup_app. split_and!; [done | | apply NoDup_singleton].
  intros x Hx ->%list_elem_of_singleton. done.
Qed.

(** Writing a key twice keeps only the second value. *)
Lemma set_set m k v1 v2 :
  JsMap.set k v2 (JsMap.set k v1 m) = JsMap.set k v2 m.
Proof.
  induction m as [|[k0 v0] m IH]; simpl.
  - by rewrite decide_True.
  - destruct (decide (k0 = k)) as [->|Hk]; simpl.
    + by rewrite decide_True.
    + rewrite decide_False; [by rewrite IH | done].
Qed.

Lemma get_Some_elem m k v : JsMap.get k m = Some v → (k, v) ∈ m.
Proof.
  induction m as [|[k0 v0] m IH]; simpl; [done |].
  destruct (decide (k0 = k)) as [->|Hk].
  - intros [= ->]. apply elem_of_cons. by left.
  - intros H. apply elem_of_cons. right. by apply IH.
Qed.

Lemma elem_get_Some m k v : JsMap.wf m → (k, v) ∈ m → JsMap.get k m = Some v.
Proof.
  unfold JsMap.wf, JsMap.keys.
  induction m as [|[k0 v0] m IH]; simpl; [by intros _ ?%elem_of_nil |].
  intros [Hnin Hnd]%NoDup_cons [Heq|Hin]%elem_of_cons.
  - injection Heq as -> ->. by rewrite decide_True.
  - destruct (decide (k0 = k)) as [->|Hk]; [| by apply IH].
    exfalso. apply Hnin. apply list_elem_of_fmap. by exists (k, v).
Qed.

Lemma Forall_set (P : string * V → Prop) m k v :
  (∀ k', P (k', v)) → Forall P m → Forall P (JsMap.set k v m).
Proof.
  intros Hv. induction 1 as [|[k0 v0] m H0 Hm IH]; simpl.
  - by repeat constructor.
  - destruct (decide (k0 = k)); constructor; auto.
Qed.

End JsMapFacts.

(** * The yes-counter map against the ledger *)

Lemma yesEntries_cons o k a es :
  yesEntries o ((k, a) :: es)
  = (if decide (k = o ∧ a = "yes") then 1 else 0) + yesEntries o es.
Proof.
  unfold yesEntries. rewrite filter_cons. simpl.
  destruct (decide (k = o ∧ a = "yes")); reflexivity.
Qed.

Lemma cnt_set o k n m :
  cnt o (JsMap.set k n m) = if decide (k = o) then n else cnt o m.
Proof.
  unfold cnt. destruct (decide (k = o)) as [->|Hne].
  - by rewrite get_set_eq.
  - by rewrite get_set_ne.
Qed.

Lemma cnt_countYes o es : ∀ acc,
  cnt o (countYes acc es) = cnt o acc + yesEntries o es.
Proof.
  unfold countYes.
  induction es as [|[k a] es IH]; intros acc; cbn [fold_left fst snd].
  - unfold yesEntries. simpl. lia.
  - rewrite IH, yesEntries_cons.
    destruct (bool_decide_reflect (a = "yes")) as [->|Ha].
    + rewrite cnt_set. fold (cnt k acc).
      destruct (decide (k = o)) as [->|Hk].
      * rewrite decide_True by done. lia.
      * rewrite decide_False by (intros [? _]; done). lia.
    + rewrite decide_False by (intros [_ ?]; done). lia.
Qed.

Lemma goodCounts_countYes es : ∀ acc,
  goodCounts acc → goodCounts (countYes acc es).
Proof.
  unfold countYes.
  induction es as [|[k a] es IH]; intros acc Hacc; cbn [fold_left fst snd].
  - done.
  - apply IH. destruct (bool_decide (a = "yes")); [| done].
    destruct Hacc as [Hwf Hpos]. split.
    + by apply wf_set.
    + apply Forall_set; [intros; simpl; lia | done].
Qed.

Lemma cnt_fold_countYes o sw : ∀ acc,
  cnt o (fold_left (fun a r => countYes a (optionSwipes r)) sw acc)
  = cnt o acc + yesCount o sw.
Proof.
  unfold yesCount.
  induction sw as [|r sw IH]; intros acc; cbn [fold_left].
  - simpl. lia.
  - rewrite IH, cnt_countYes, fmap_cons. cbn [sum_list]. unfold id. lia.
Qed.

Lemma goodCounts_fold_countYes sw : ∀ acc,
  goodCounts acc →
  goodCounts (fold_left (fun a r => countYes a (optionSwipes r)) sw acc).
Proof.
  induction sw as [|r sw IH]; intros acc Hacc; cbn [fold_left]; [done |].
  apply IH. by apply goodCounts_countYes.
Qed.

Lemma goodCounts_empty : goodCounts JsMap.empty.
Proof. split; [apply NoDup_nil_2 | constructor]. Qed.

Lemma goodCounts_tally sw : goodCounts (tally sw).
Proof. apply goodCounts_fold_countYes, goodCounts_empty. Qed.

Lemma cnt_tally o sw : cnt o (tally sw) = yesCount o sw.
Proof. unfold tally. by rewrite cnt_fold_countYes. Qed.

(** The entries of the counter map are exactly the options with at least one
    yes vote, each with its number of yes votes. *)
Lemma tally_elem sw o n :
  (o, n) ∈ tally sw ↔ 0 < n ∧ n = yesCount o sw.
Proof.
  destruct (goodCounts_tally sw) as [Hwf Hpos]. split.
  - intros Hin. split.
    + rewrite Forall_forall in Hpos. apply (Hpos _ Hin).
    + rewrite <- cnt_tally. unfold cnt.
      by rewrite (elem_get_Some _ _ _ Hwf Hin).
  - intros [Hn ->]. apply get_Some_elem.
    rewrite <- cnt_tally in *. unfold cnt in *.
    destruct (JsMap.get o (tally sw)); simpl in *; [done | lia].
Qed.

Lemma yesEntries_zero o es :
  yesEntries o es = 0 ↔ ∀ e, e ∈ es → ¬ (e.1 = o ∧ e.2 = "yes").
Proof.
  unfold yesEntries. rewrite length_zero_iff_nil. split.
  - intros Hnil e He Hp.
    assert (e ∈ filter (fun e => e.1 = o ∧ e.2 = "yes") es) as Hin
      by (by apply list_elem_of_filter).
    rewrite Hnil in Hin. by apply elem_of_nil in Hin.
  - intros Hno. induction es as [|e es IH]; [done |].
    rewrite filter_cons. rewrite decide_False.
    + apply IH. intros e' He'. apply Hno, elem_of_cons. by right.
    + apply Hno, elem_of_cons. by left.
Qed.

Lemma sum_list_zero (l : list nat) : sum_list l = 0 ↔ ∀ n, n ∈ l → n = 0.
Proof.
  induction l as [|x l IH]; simpl.
  - split; [by intros _ n ?%elem_of_nil | done].
  - split.
    + intros Hs n [->|Hn]%elem_of_cons; [lia |]. apply IH; [lia | done].
    + intros Hall.
      rewrite (Hall x) by (apply elem_of_cons; by left).
      apply IH. intros n Hn. apply Hall, elem_of_cons. by right.
Qed.

Lemma yesCount_zero o sw :
  yesCount o sw = 0 ↔
  ∀ r e, r ∈ sw → e ∈ optionSwipes r → ¬ (e.1 = o ∧ e.2 = "yes").
Proof.
  unfold yesCount. rewrite sum_list_zero. split.
  - intros Hall r e Hr. apply yesEntries_zero, Hall.
    apply list_elem_of_fmap. by exists r.
  - intros Hno n (r & -> & Hr)%list_elem_of_fmap.
    apply yesEntries_zero. intros e. by apply Hno.
Qed.

(** The counter map is empty exactly when the ledger holds no yes vote. *)
Lemma tally_nil_iff sw : tally sw = [] ↔ noYesVote sw.
Proof.
  split.
  - intros Hnil r e Hr He Hyes.
    assert (yesCount e.1 sw = 0) as Hz.
    { rewrite <- cnt_tally, Hnil. reflexivity. }
    rewrite yesCount_zero in Hz. by apply (Hz r e).
  - intros Hno. destruct (tally sw) as [|[o n] t] eqn:Ht; [done |].
    assert ((o, n) ∈ tally sw) as Hin by (rewrite Ht; apply elem_of_cons; by left).
    apply tally_elem in Hin as [Hpos Hn].
    assert (yesCount o sw = 0) as Hz; [| lia].
    apply yesCount_zero. intros r e Hr He [_ Hyes]. by apply (Hno r e).
Qed.

(** * The sort of line 193 and line 197 *)

Lemma insertDesc_perm x l : insertDesc x l ≡ₚ x :: l.
Proof.
  induction l as [|y l IH]; simpl; [done |].
  destruct (decide (x.2 < y.2)); [| done].
  rewrite IH. apply Permutation_swap.
Qed.

Lemma sortDesc_perm l : sortDesc l ≡ₚ l.
Proof.
  induction l as [|x l IH]; simpl; [done |].
  by rewrite insertDesc_perm, IH.
Qed.

Lemma insertDesc_hd x y l :
  descending y x → HdRel descending y l → HdRel descending y (insertDesc x l).
Proof.
  intros Hyx Hl. destruct l as [|z l]; simpl.
  - by constructor.
  - destruct (decide (x.2 < z.2)); constructor; [| done].
    by inversion Hl.
Qed.

Lemma insertDesc_sorted x l :
  Sorted descending l → Sorted descending (insertDesc x l).
Proof.
  induction 1 as [|y l Hl IH Hhd]; simpl.
  - by repeat constructor.
  - destruct (decide (x.2 < y.2)) as [Hlt|Hge].
    + constructor; [done |].
      apply insertDesc_hd; [unfold descending; lia | done].
    + constructor; [by constructor |].
      constructor. unfold descending. lia.
Qed.

Lemma sortDesc_sorted l : Sorted descending (sortDesc l).
Proof.
  induction l as [|x l IH]; simpl; [constructor |].
  by apply insertDesc_sorted.
Qed.

Lemma sortDesc_strongly_sorted l : StronglySorted descending (sortDesc l).
Proof.
  apply Sorted_StronglySorted; [| apply sortDesc_sorted].
  intros a b c. unfold descending. lia.
Qed.

(** Stability: among entries with one count the sort keeps the order in
    which the counter map lists them. *)
Lemma insertDesc_filter c x l :
  filter (fun e => e.2 = c) (insertDesc x l)
  = filter (fun e => e.2 = c) (x :: l).
Proof.
  induction l as [|y l IH]; simpl; [done |].
  destruct (decide (x.2 < y.2)) as [Hlt|Hge]; [| done].
  rewrite (filter_cons _ y), IH, !(filter_cons _ x), (filter_cons _ y).
  destruct (decide (x.2 = c)), (decide (y.2 = c)); try done. lia.
Qed.

Lemma sortDesc_stable c l :
  filter (fun e => e.2 = c) (sortDesc l) = filter (fun e => e.2 = c) l.
Proof.
  induction l as [|x l IH]; simpl; [done |].
  by rewrite insertDesc_filter, !filter_cons, IH.
Qed.

Lemma sortDesc_elem e l : e ∈ sortDesc l ↔ e ∈ l.
Proof. by rewrite sortDesc_perm. Qed.

Lemma sortDesc_nil_iff l : sortDesc l = [] ↔ l = [].
Proof.
  split; [| by intros ->].
  intros H. apply Permutation_nil_r. by rewrite <- H, sortDesc_perm.
Qed.

Lemma sortDesc_keys_NoDup l : NoDup l.*1 → NoDup (sortDesc l).*1.
Proof. intros H. by rewrite sortDesc_perm. Qed.

(** * GET /session-result *)

Lemma present_Some sid : sid ≠ "" → present (Some sid) = Some sid.
Proof. by destruct sid. Qed.

Lemma sessionResult_found db sid s :
  sid ≠ "" → Sessions db !! sid = Some s →
  sessionResult db (Some sid) = (resultOf s, db).
Proof.
  intros Hsid Hs. unfold sessionResult. by rewrite present_Some, Hs.
Qed.

Lemma unanimousOf_elem s o :
  o ∈ unanimousOf (length (users s)) (tally (swipes s)) ↔ unanimousOption s o.
Proof.
  unfold unanimousOf, unanimousOption. rewrite list_elem_of_fmap. split.
  - intros ([o' n] & -> & [Hn Hin]%list_elem_of_filter).
    apply tally_elem in Hin as [Hpos Hcount]. simpl in *. lia.
  - intros [Hpos Hcount]. exists (o, yesCount o (swipes s)). split; [done |].
    apply list_elem_of_filter. split; [done |]. by apply tally_elem.
Qed.

Lemma unanimousOf_NoDup n sw : NoDup (unanimousOf n (tally sw)).
Proof.
  unfold unanimousOf.
  apply (sublist_NoDup _ (tally sw).*1).
  - apply (goodCounts_tally sw).
  - apply fmap_sublist, sublist_filter.
Qed.

Lemma unanimousOf_nonempty s :
  0 < length (unanimousOf (length (users s)) (tally (swipes s)))
  ↔ ∃ o, unanimousOption s o.
Proof.
  split.
  - destruct (unanimousOf _ _) as [|o U] eqn:HU; simpl; [lia |].
    intros _. exists o. apply unanimousOf_elem. rewrite HU.
    apply elem_of_cons. by left.
  - intros [o Ho%unanimousOf_elem].
    destruct (unanimousOf _ _); [by apply elem_of_nil in Ho | simpl; lia].
Qed.

Lemma resultOf_unanimous s :
  (∃ o, unanimousOption s o) →
  resultOf s
  = respond 200
      (UnanimousJson "Unanimous decisions found"
         (unanimousOf (length (users s)) (tally (swipes s)))
         (sortDesc (tally (swipes s)))).
Proof.
  intros H%unanimousOf_nonempty. unfold resultOf.
  by rewrite bool_decide_eq_true_2.
Qed.

Lemma resultOf_not_unanimous s :
  ¬ (∃ o, unanimousOption s o) →
  resultOf s
  = if bool_decide (length (sortDesc (tally (swipes s))) = 0)
    then respond 400 (ErrorJson noYesSwipes)
    else respond 200
           (RankedJson "No unanimous decisions; sorted yes swipes provided"
              (sortDesc (tally (swipes s)))).
Proof.
  intros H. unfold resultOf. rewrite bool_decide_eq_false_2; [done |].
  by rewrite unanimousOf_nonempty.
Qed.

Lemma unanimousOption_dec s : Decision (∃ o, unanimousOption s o).
Proof.
  destruct (decide (0 < length (unanimousOf (length (users s))
                                  (tally (swipes s))))) as [H|H].
  - left. by apply unanimousOf_nonempty.
  - right. by rewrite <- unanimousOf_nonempty.
Qed.

Lemma sortDesc_tally_elem sw o n :
  (o, n) ∈ sortDesc (tally sw) ↔ 0 < n ∧ n = yesCount o sw.
Proof. by rewrite sortDesc_elem, tally_elem. Qed.

(** C1. For a session in the store, the answer of [/session-result] is
    the unanimous one exactly when some option has a yes-counter equal to
    the number of members; the answer then lists exactly those options, and
    with them every (optionId, yesCount) pair of the ledger, once each, in
    descending order of yesCount. *)
Theorem unanimous_result_iff (db : Db) (sid : string) (s : Session) :
  sid ≠ "" →
  Sessions db !! sid = Some s →
  let r := (sessionResult db (Some sid)).1 in
  (isUnanimous r = true ↔ ∃ o, unanimousOption s o) ∧
  (isUnanimous r = true →
   ∃ U all,
     r = respond 200 (UnanimousJson "Unanimous decisions found" U all) ∧
     NoDup U ∧ (∀ o, o ∈ U ↔ unanimousOption s o) ∧
     NoDup all.*1 ∧
     (∀ o n, (o, n) ∈ all ↔ 0 < n ∧ n = yesCount o (swipes s)) ∧
     StronglySorted descending all).
Proof.
  intros Hsid Hs. rewrite (sessionResult_found _ _ _ Hsid Hs). cbn [fst].
  destruct (unanimousOption_dec s) as [Hu|Hno].
  - rewrite (resultOf_unanimous _ Hu). split; [done |]. intros _.
    eexists _, _. split; [reflexivity |]. split_and!.
    + apply unanimousOf_NoDup.
    + apply unanimousOf_elem.
    + apply sortDesc_keys_NoDup, goodCounts_tally.
    + apply sortDesc_tally_elem.
    + apply sortDesc_strongly_sorted.
  - rewrite (resultOf_not_unanimous _ Hno).
    destruct (bool_decide _); cbn; split; try done; intros; done.
Qed.

Lemma resultOf_no_yes s :
  noYesVote (swipes s) → resultOf s = respond 400 (ErrorJson noYesSwipes).
Proof.
  intros Hno%tally_nil_iff. unfold resultOf. by rewrite Hno.
Qed.

Lemma resultOf_some_yes s : ¬ noYesVote (swipes s) → statusCode (resultOf s) = 200.
Proof.
  intros Hyes. destruct (unanimousOption_dec s) as [Hu|Hno].
  - by rewrite (resultOf_unanimous _ Hu).
  - rewrite (resultOf_not_unanimous _ Hno).
    rewrite bool_decide_eq_false_2; [done |].
    rewrite length_zero_iff_nil, sortDesc_nil_iff, tally_nil_iff. done.
Qed.

(** C6. For a session in the store, [/session-result] answers with the
    error [No "yes" swipes recorded] (status 400) if and only if no swipe
    record of the session holds a yes vote, which is when the yes-counter map
    is empty; a ledger of no votes only is such a ledger.  With a yes vote
    somewhere the answer is a 200. *)
Theorem no_data_iff (db : Db) (sid : string) (s : Session) :
  sid ≠ "" →
  Sessions db !! sid = Some s →
  let r := (sessionResult db (Some sid)).1 in
  (r = respond 400 (ErrorJson noYesSwipes) ↔ noYesVote (swipes s)) ∧
  (statusCode r ≠ 200 ↔ noYesVote (swipes s)) ∧
  (noYesVote (swipes s) ↔ tally (swipes s) = []) ∧
  ((∀ u, u ∈ swipes s → ∀ e, e ∈ optionSwipes u → e.2 = "no") →
   r = respond 400 (ErrorJson noYesSwipes)).
Proof.
  intros Hsid Hs. rewrite (sessionResult_found _ _ _ Hsid Hs). cbn [fst].
  assert (noYesVote (swipes s) ∨ ¬ noYesVote (swipes s)) as [Hno|Hyes].
  { rewrite <- tally_nil_iff. destruct (tally (swipes s)); [by left | by right]. }
  - split_and!.
    + split; [done | by apply resultOf_no_yes].
    + split; [done |]. intros _. by rewrite (resultOf_no_yes _ Hno).
    + symmetry. apply tally_nil_iff.
    + intros _. by apply resultOf_no_yes.
  - pose proof (resultOf_some_yes _ Hyes) as H200. split_and!.
    + split; [| done]. intros Hr. by rewrite Hr in H200.
    + split; [done | done].
    + symmetry. apply tally_nil_iff.
    + intros Hall. exfalso. apply Hyes. intros u e Hu He Hy.
      by rewrite (Hall u Hu e He) in Hy.
Qed.

(** C7. For a session in the store whose [users] list is empty, the answer
    of [/session-result] is never the unanimous one and no option is
    unanimous, whatever the swipe records are. *)
Theorem zero_members_never_unanimous (db : Db) (sid : string) (s : Session) :
  sid ≠ "" →
  Sessions db !! sid = Some s →
  users s = [] →
  isUnanimous (sessionResult db (Some sid)).1 = false ∧
  unanimousOf (length (users s)) (tally (swipes s)) = [] ∧
  ∀ o, ¬ unanimousOption s o.
Proof.
  intros Hsid Hs Hu. rewrite (sessionResult_found _ _ _ Hsid Hs). cbn [fst].
  assert (∀ o, ¬ unanimousOption s o) as Hnone.
  { intros o [Hpos Heq]. rewrite Hu in Heq. simpl in Heq. lia. }
  assert (¬ ∃ o, unanimousOption s o) as Hno by (intros [o Ho]; by apply (Hnone o)).
  split_and!; [| | done].
  - rewrite (resultOf_not_unanimous _ Hno). by destruct (bool_decide _).
  - destruct (unanimousOf _ _) as [|o U] eqn:HU; [done |].
    exfalso. apply (Hnone o), unanimousOf_elem. rewrite HU.
    apply elem_of_cons. by left.
Qed.

(** C9. The answer of [/session-result] is a function of the session's
    ledger and membership alone and the request writes nothing: asked again
    on the state it leaves, it gives the same answer, and any two stores in
    which the session has the same [swipes] and [users] give the same answer.
    The order of [allResults] is fixed as well: among options with one
    yes-count it is the order in which the counter map lists them. *)
Theorem session_result_deterministic
    (db1 db2 : Db) (sid : string) (s1 s2 : Session) :
  sid ≠ "" →
  Sessions db1 !! sid = Some s1 →
  Sessions db2 !! sid = Some s2 →
  swipes s1 = swipes s2 →
  users s1 = users s2 →
  let q := GetSessionResult (Some sid) in
  (app db1 q).2 = db1 ∧
  (app (app db1 q).2 q).1 = (app db1 q).1 ∧
  (app db1 q).1 = (app db2 q).1 ∧
  ∀ c, filter (fun e => e.2 = c) (allResultsOf (app db1 q).1)
       = filter (fun e => e.2 = c) (tally (swipes s1)).
Proof.
  intros Hsid H1 H2 Hsw Hus. cbn [app].
  rewrite (sessionResult_found _ _ _ Hsid H1), (sessionResult_found _ _ _ Hsid H2).
  cbn [fst snd]. rewrite (sessionResult_found _ _ _ Hsid H1). cbn [fst].
  split_and!; [done | done | |].
  - unfold resultOf. by rewrite Hsw, Hus.
  - intros c. unfold resultOf. destruct (bool_decide _).
    + apply sortDesc_stable.
    + destruct (bool_decide_reflect (length (sortDesc (tally (swipes s1))) = 0))
        as [Hz|Hnz]; cbn.
      * apply length_zero_iff_nil in Hz.
        apply (proj1 (sortDesc_nil_iff _)) in Hz. by rewrite Hz.
      * apply sortDesc_stable.
Qed.

(** * POST /swipe-option *)

Lemma find_user_None (uid : string) (l : list string) :
  find (fun user => bool_decide (user = uid)) l = None ↔ uid ∉ l.
Proof.
  induction l as [|u l IH]; simpl.
  - split; [intros _; apply not_elem_of_nil | done].
  - rewrite not_elem_of_cons. destruct (bool_decide_reflect (u = uid)) as [->|Hne].
    + split; [done | by intros [? _]].
    + rewrite IH. split; [by intros ? | by intros [_ ?]].
Qed.

Lemma find_swipe_None uid sw :
  find (fun swipe => bool_decide (userId swipe = uid)) sw = None
  ↔ ∀ r, r ∈ sw → userId r ≠ uid.
Proof.
  induction sw as [|r0 sw IH]; simpl.
  - split; [by intros _ r ?%elem_of_nil | done].
  - destruct (bool_decide_reflect (userId r0 = uid)) as [Heq|Hne].
    + split; [done |]. intros H. exfalso. apply (H r0); [| done].
      apply elem_of_cons. by left.
    + rewrite IH. split.
      * intros H r [->|Hr]%elem_of_cons; [done | by apply H].
      * intros H r Hr. apply H, elem_of_cons. by right.
Qed.

Lemma find_swipe_Some uid k v sw r :
  find (fun swipe => bool_decide (userId swipe = uid)) sw = Some r →
  ∃ i, sw !! i = Some r ∧ userId r = uid ∧
       (∀ j r', j < i → sw !! j = Some r' → userId r' ≠ uid) ∧
       setFirst uid k v sw = <[i := voted k v r]> sw.
Proof.
  induction sw as [|r0 sw IH]; simpl; [done |].
  destruct (bool_decide_reflect (userId r0 = uid)) as [Heq|Hne].
  - intros [= ->]. exists 0. split_and!; [done | done | intros; lia | done].
  - intros (i & Hi & Hr & Hfirst & Hset)%IH. exists (S i).
    split_and!; [done | done | | by rewrite Hset].
    intros [|j] r' Hj Hr'; simpl in Hr'.
    + by injection Hr' as <-.
    + apply (Hfirst j); [lia | done].
Qed.

(** Every run of the handler takes one of the six paths. *)
Lemma swipeOption_outcome db req : SwipeOutcome db req (swipeOption db req).
Proof.
  unfold swipeOption.
  destruct (present (swipe_sessionId req)) as [sid|] eqn:E1;
    [| apply SwipeMissingField; auto].
  destruct (present (swipe_userId req)) as [uid|] eqn:E2;
    [| apply SwipeMissingField; auto].
  destruct (present (swipe_optionId req)) as [oid|] eqn:E3;
    [| apply SwipeMissingField; auto].
  destruct (present (swipe_swipeAction req)) as [act|] eqn:E4;
    [| apply SwipeMissingField; auto].
  assert (swipeFields req sid uid oid act) as Hf by done.
  destruct (Sessions db !! sid) as [s|] eqn:Hs;
    [| by eapply SwipeNoSession].
  destruct (find _ (users s)) as [u|] eqn:Hu;
    [| apply find_user_None in Hu; by eapply SwipeNotMember].
  assert (uid ∈ users s) as Hmem.
  { destruct (decide (uid ∈ users s)) as [|Hn]; [done |].
    apply find_user_None in Hn. congruence. }
  destruct (bool_decide_reflect (act ∈ ["yes"; "no"])) as [Hact|Hact]; cbn [negb];
    [| by eapply SwipeInvalidAction].
  destruct (find _ (swipes s)) as [r|] eqn:Hr.
  - destruct (find_swipe_Some _ oid act _ _ Hr) as (i & Hi & Hid & Hfirst & ->).
    by eapply SwipeUpdated.
  - pose proof (proj1 (find_swipe_None _ _) Hr) as Hnone.
    by eapply SwipeCreated.
Qed.


Lemma swipeOption_existing db req sid uid oid act s r :
  swipeFields req sid uid oid act →
  Sessions db !! sid = Some s →
  uid ∈ users s →
  act ∈ ["yes"; "no"] →
  find (fun swipe => bool_decide (userId swipe = uid)) (swipes s) = Some r →
  swipeOption db req
  = (respond 200
       (SwipesJson "Swipe action recorded successfully"
          (JsMap.set oid act (optionSwipes r))),
     savedSession db sid (withSwipes (setFirst uid oid act (swipes s)) s)).
Proof.
  intros (E1 & E2 & E3 & E4) Hs Hu Hact Hr. unfold swipeOption.
  rewrite E1, E2, E3, E4, Hs.
  destruct (find _ (users s)) eqn:Hfu;
    [| apply find_user_None in Hfu; done].
  by rewrite (bool_decide_eq_true_2 _ Hact), Hr.
Qed.

Lemma find_setFirst uid k v sw r :
  find (fun swipe => bool_decide (userId swipe = uid)) sw = Some r →
  find (fun swipe => bool_decide (userId swipe = uid)) (setFirst uid k v sw)
  = Some (voted k v r).
Proof.
  induction sw as [|r0 sw IH]; simpl; [done |].
  destruct (bool_decide_reflect (userId r0 = uid)) as [Heq|Hne]; simpl.
  - intros [= ->]. by rewrite bool_decide_eq_true_2.
  - by rewrite bool_decide_eq_false_2.
Qed.

Lemma setFirst_setFirst uid k v1 v2 sw :
  setFirst uid k v2 (setFirst uid k v1 sw) = setFirst uid k v2 sw.
Proof.
  induction sw as [|r0 sw IH]; simpl; [done |].
  destruct (bool_decide_reflect (userId r0 = uid)) as [Heq|Hne]; simpl.
  - rewrite bool_decide_eq_true_2 by done. by rewrite set_set.
  - rewrite bool_decide_eq_false_2 by done. by rewrite IH.
Qed.

(** Once the user has a swipe record in the session, a second swipe on the
    same option replaces the first: the state and the answer are those of
    the second swipe alone.  With equal votes this is idempotence. *)
Lemma swipe_again_existing db req1 req2 sid uid oid a1 a2 s r :
  swipeFields req1 sid uid oid a1 →
  swipeFields req2 sid uid oid a2 →
  Sessions db !! sid = Some s →
  uid ∈ users s →
  a1 ∈ ["yes"; "no"] →
  a2 ∈ ["yes"; "no"] →
  find (fun swipe => bool_decide (userId swipe = uid)) (swipes s) = Some r →
  swipeOption (swipeOption db req1).2 req2 = swipeOption db req2.
Proof.
  intros F1 F2 Hs Hu H1 H2 Hr.
  rewrite (swipeOption_existing db req1 _ _ _ _ _ _ F1 Hs Hu H1 Hr).
  rewrite (swipeOption_existing db req2 _ _ _ _ _ _ F2 Hs Hu H2 Hr).
  cbn [snd].
  set (s1 := withSwipes (setFirst uid oid a1 (swipes s)) s).
  assert (Sessions (savedSession db sid s1) !! sid = Some s1) as Hs1
    by apply lookup_insert_eq.
  assert (find (fun swipe => bool_decide (userId swipe = uid)) (swipes s1)
          = Some (voted oid a1 r)) as Hr1 by (by apply find_setFirst).
  rewrite (swipeOption_existing _ req2 _ _ _ _ s1 _ F2 Hs1 Hu H2 Hr1).
  cbn [voted optionSwipes withSwipes swipes s1].
  rewrite set_set, setFirst_setFirst.
  unfold savedSession. cbn [Sessions Users]. by rewrite insert_insert_eq.
Qed.


(** C10. A successful swipe writes one session and, in it, nothing but the
    [swipes] list: every other field is as before, every record of another
    user stays at its position unchanged, and either one record of the user
    gets the vote set, or, the user having no record, one record of the user
    is appended.  The other sessions and all users are untouched. *)
Theorem swipe_frame (db : Db) (req : SwipeBody) :
  statusCode (swipeOption db req).1 = 200 →
  ∃ sid uid oid act s s',
    swipeFields req sid uid oid act ∧
    Sessions db !! sid = Some s ∧
    (swipeOption db req).2 = savedSession db sid s' ∧
    sessionId s' = sessionId s ∧ title s' = title s ∧
    createdBy s' = createdBy s ∧ users s' = users s ∧
    options s' = options s ∧ status s' = status s ∧
    (∀ i r, swipes s !! i = Some r → userId r ≠ uid → swipes s' !! i = Some r) ∧
    ((∃ i r, swipes s !! i = Some r ∧ userId r = uid ∧
             swipes s' = <[i := voted oid act r]> (swipes s))
     ∨ ((∀ r, r ∈ swipes s → userId r ≠ uid) ∧
        ∃ r', userId r' = uid ∧ swipes s' = (swipes s ++ [r'])%list)) ∧
    (∀ sid', sid' ≠ sid →
       Sessions (swipeOption db req).2 !! sid' = Sessions db !! sid') ∧
    Users (swipeOption db req).2 = Users db.
Proof.
  intros Hok. destruct (swipeOption_outcome db req)
    as [ | | | | sid uid oid act s i r Hf Hs Hu Hact Hi Hid Hfirst
           | sid uid oid act s Hf Hs Hu Hact Hnone ];
    cbn in Hok; try discriminate.
  - eexists sid, uid, oid, act, s, _. cbn [fst snd].
    split_and!; try done.
    + intros j r' Hj Hne. cbn [withSwipes swipes].
      rewrite list_lookup_insert_ne; [done |]. intros <-. congruence.
    + left. by exists i, r.
    + intros sid' Hne. cbn. by rewrite lookup_insert_ne.
  - eexists sid, uid, oid, act, s, _. cbn [fst snd].
    split_and!; try done.
    + intros j r' Hj Hne. cbn [withSwipes swipes]. by apply lookup_app_l_Some.
    + right. split; [done |].
      by exists {| userId := uid; optionSwipes := [] |}.
    + intros sid' Hne. cbn. by rewrite lookup_insert_ne.
Qed.

(** * POST /join-session *)

Lemma joinSession_failed db req :
  statusCode (joinSession db req).1 ≠ 200 →
  (joinSession db req).2 = db ∧
  (∃ msg, json (joinSession db req).1 = ErrorJson msg) ∧
  (statusCode (joinSession db req).1 = 400 ∨
   statusCode (joinSession db req).1 = 404).
Proof.
  unfold joinSession.
  destruct (present (join_sessionId req)) as [sid|];
    [| cbn; eauto].
  destruct (present (join_userId req)) as [uid|]; [| cbn; eauto].
  destruct (Sessions db !! sid) as [s|]; [| cbn; eauto].
  destruct (bool_decide _); [cbn; eauto |].
  destruct (Users db !! uid) as [u|]; [| cbn; eauto].
  destruct (bool_decide _); cbn; eauto. done.
Qed.


Lemma sessionResult_unchanged db q : (sessionResult db q).2 = db.
Proof.
  unfold sessionResult. destruct (present q); [| done].
  by destruct (Sessions db !! _).
Qed.



(** * Worked examples *)

Example dinner_result :
  (sessionResult exampleDb (Some dinner)).1
  = respond 200
      (UnanimousJson "Unanimous decisions found" ["A"] [("A", 2); ("B", 1)]).
Proof. vm_compute. reflexivity. Qed.

Lemma unanimous_result_iff_witness :
  isUnanimous (sessionResult exampleDb (Some dinner)).1 = true
  ↔ (∃ o, unanimousOption dinnerSession o).
Proof.
  destruct (unanimous_result_iff exampleDb dinner dinnerSession) as [H _];
    [discriminate | vm_compute; reflexivity | exact H].
Defined.

Lemma no_data_iff_witness :
  (sessionResult exampleDb (Some supper)).1 = respond 400 (ErrorJson noYesSwipes)
  ↔ noYesVote (swipes supperSession).
Proof.
  destruct (no_data_iff exampleDb supper supperSession) as [H _];
    [discriminate | vm_compute; reflexivity | exact H].
Defined.

Lemma zero_members_never_unanimous_witness :
  isUnanimous (sessionResult exampleDb (Some picnic)).1 = false.
Proof.
  destruct (zero_members_never_unanimous exampleDb picnic picnicSession)
    as [H _]; [discriminate | vm_compute; reflexivity | reflexivity | exact H].
Defined.

Lemma session_result_deterministic_witness :
  (app (app exampleDb (GetSessionResult (Some dinner))).2
       (GetSessionResult (Some dinner))).1
  = (app exampleDb (GetSessionResult (Some dinner))).1.
Proof.
  destruct (session_result_deterministic exampleDb exampleDb dinner
              dinnerSession dinnerSession) as (_ & H & _);
    [discriminate | vm_compute; reflexivity | vm_compute; reflexivity
    | reflexivity | reflexivity | exact H].
Defined.






Lemma swipe_frame_witness :
  ∃ sid uid oid act s s',
    swipeFields (swipeReq dinner bob "B" "yes") sid uid oid act ∧
    Sessions exampleDb !! sid = Some s ∧
    (swipeOption exampleDb (swipeReq dinner bob "B" "yes")).2
    = savedSession exampleDb sid s' ∧
    users s' = users s.
Proof.
  destruct (swipe_frame exampleDb (swipeReq dinner bob "B" "yes"))
    as (sid & uid & oid & act & s & s' & Hf & Hs & Hdb & _ & _ & _ & Hu & _).
  - vm_compute. reflexivity.
  - by exists sid, uid, oid, act, s, s'.
Defined.

(** C4, at its failing input.  Alice is a member of the lunch session and
    has no swipe record yet.  Her first swipe answers with the vote map
    [1 -> yes] but saves a record with an empty map; the same request sent
    again answers the same and only now saves the vote.  The state after the
    second call is not the state after the first. *)
Theorem first_swipe_repeated_changes_state :
  let rq := swipeReq lunch alice "1" "yes" in
  let once := swipeOption exampleDb rq in
  let twice := swipeOption once.2 rq in
  once.1 = respond 200 (SwipesJson "Swipe action recorded successfully" [("1", "yes")]) ∧
  twice.1 = once.1 ∧
  swipes <$> Sessions once.2 !! lunch
  = Some [ {| userId := alice; optionSwipes := [] |} ] ∧
  swipes <$> Sessions twice.2 !! lunch
  = Some [ {| userId := alice; optionSwipes := [("1", "yes")] |} ] ∧
  twice.2 ≠ once.2.
Proof.
  cbv zeta. repeat (split; [vm_compute; reflexivity |]).
  intros Heq.
  assert (swipes <$> Sessions (swipeOption (swipeOption exampleDb
            (swipeReq lunch alice "1" "yes")).2
            (swipeReq lunch alice "1" "yes")).2 !! lunch
          = swipes <$> Sessions (swipeOption exampleDb
              (swipeReq lunch alice "1" "yes")).2 !! lunch) as H
    by (by rewrite Heq).
  vm_compute in H. discriminate.
Qed.

(** C5, at its failing input.  On the same session, swiping no and then yes
    on one option leaves Alice's record with the yes vote only, but a single
    yes swipe on the initial state leaves her record empty: the two states
    are not equal. *)
Theorem first_swipe_overwrite_differs_from_single :
  let both := swipeOption (swipeOption exampleDb (swipeReq lunch alice "1" "no")).2
                (swipeReq lunch alice "1" "yes") in
  let single := swipeOption exampleDb (swipeReq lunch alice "1" "yes") in
  statusCode both.1 = 200 ∧ statusCode single.1 = 200 ∧
  swipes <$> Sessions both.2 !! lunch
  = Some [ {| userId := alice; optionSwipes := [("1", "yes")] |} ] ∧
  swipes <$> Sessions single.2 !! lunch
  = Some [ {| userId := alice; optionSwipes := [] |} ] ∧
  both.2 ≠ single.2.
Proof.
  cbv zeta. repeat (split; [vm_compute; reflexivity |]).
  intros Heq.
  assert (swipes <$> Sessions (swipeOption (swipeOption exampleDb
            (swipeReq lunch alice "1" "no")).2
            (swipeReq lunch alice "1" "yes")).2 !! lunch
          = swipes <$> Sessions (swipeOption exampleDb
              (swipeReq lunch alice "1" "yes")).2 !! lunch) as H
    by (by rewrite Heq).
  vm_compute in H. discriminate.
Qed.

(** With a record already there the same two calls do agree. *)
Example dinner_swipe_twice :
  swipeOption (swipeOption exampleDb (swipeReq dinner bob "B" "yes")).2
    (swipeReq dinner bob "B" "yes")
  = swipeOption exampleDb (swipeReq dinner bob "B" "yes").
Proof.
  apply (swipe_again_existing exampleDb _ _ dinner bob "B" "yes" "yes"
           dinnerSession {| userId := bob; optionSwipes := [("A", "yes"); ("B", "no")] |});
    try (by repeat split); try (vm_compute; reflexivity).
  - apply elem_of_cons. right. apply elem_of_cons. by left.
  - apply elem_of_cons. by left.
  - apply elem_of_cons. by left.
Qed.

(** * More on POST /join-session *)

Lemma closed_status_iff st :
  statusText st ∈ ["Completed"; "Cancelled"] ↔ ¬ openStatus st.
Proof.
  unfold openStatus. split.
  - intros Hin [Hc Hx]. destruct st; try done;
      repeat (apply elem_of_cons in Hin as [Hin|Hin]; [discriminate |]);
      by apply elem_of_nil in Hin.
  - intros Hno. destruct st.
    + exfalso. apply Hno. by split.
    + exfalso. apply Hno. by split.
    + apply elem_of_cons. by left.
    + apply elem_of_cons. right. apply elem_of_cons. by left.
Qed.

Lemma joinSession_ok db req sid uid s u :
  joinFields req sid uid →
  Sessions db !! sid = Some s →
  openStatus (status s) →
  Users db !! uid = Some u →
  uid ∉ users s →
  joinSession db req
  = (respond 200 (JoinedJson "User successfully joined session" (addUser uid s)),
     {| Sessions := <[sid := addUser uid s]> (Sessions db);
        Users := <[uid := addJoined sid u]> (Users db) |}).
Proof.
  intros [E1 E2] Hs Hopen Hu Hnin. unfold joinSession.
  rewrite E1, E2, Hs.
  rewrite bool_decide_eq_false_2 by (rewrite closed_status_iff; tauto).
  rewrite Hu. by rewrite bool_decide_eq_false_2.
Qed.

Lemma joinSession_200_inv db req :
  statusCode (joinSession db req).1 = 200 →
  ∃ sid uid s u,
    joinFields req sid uid ∧ Sessions db !! sid = Some s ∧
    openStatus (status s) ∧ Users db !! uid = Some u ∧ uid ∉ users s.
Proof.
  unfold joinSession.
  destruct (present (join_sessionId req)) as [sid|] eqn:E1; [| done].
  destruct (present (join_userId req)) as [uid|] eqn:E2; [| done].
  destruct (Sessions db !! sid) as [s|] eqn:Hs; [| done].
  destruct (bool_decide_reflect
              (statusText (status s) ∈ ["Completed"; "Cancelled"]))
    as [Hc|Hc]; [done |].
  destruct (Users db !! uid) as [u|] eqn:Hu; [| done].
  destruct (bool_decide_reflect (uid ∈ users s)) as [Hin|Hnin]; [done |].
  intros _. exists sid, uid, s, u. split_and!; try done.
  unfold openStatus. destruct (status s); try done; exfalso; apply Hc.
  - apply elem_of_cons. by left.
  - apply elem_of_cons. right. apply elem_of_cons. by left.
Qed.


(** X2. A successful join appends the user to the session's [users] (one
    more member, the new one last) and the session to the user's
    [joinedSessions]; nothing else of the two documents changes, the answer
    carries the new session, and every other session and user is as before. *)
Theorem join_success_effect
    (db : Db) (req : JoinBody) (sid uid : string) (s : Session) (u : User.t) :
  joinFields req sid uid →
  Sessions db !! sid = Some s →
  openStatus (status s) →
  Users db !! uid = Some u →
  uid ∉ users s →
  ∃ s' u',
    Sessions (joinSession db req).2 !! sid = Some s' ∧
    Users (joinSession db req).2 !! uid = Some u' ∧
    json (joinSession db req).1
    = JoinedJson "User successfully joined session" s' ∧
    users s' = (users s ++ [uid])%list ∧
    length (users s') = S (length (users s)) ∧
    swipes s' = swipes s ∧ status s' = status s ∧ title s' = title s ∧
    options s' = options s ∧ createdBy s' = createdBy s ∧
    sessionId s' = sessionId s ∧
    User.joinedSessions u' = (User.joinedSessions u ++ [sid])%list ∧
    User.createdSessions u' = User.createdSessions u ∧
    User.userName u' = User.userName u ∧ User.email u' = User.email u ∧
    (∀ sid', sid' ≠ sid →
       Sessions (joinSession db req).2 !! sid' = Sessions db !! sid') ∧
    (∀ uid', uid' ≠ uid →
       Users (joinSession db req).2 !! uid' = Users db !! uid').
Proof.
  intros Hf Hs Hopen Hu Hnin.
  rewrite (joinSession_ok _ _ _ _ _ _ Hf Hs Hopen Hu Hnin). cbn [fst snd].
  exists (addUser uid s), (addJoined sid u). cbn.
  split_and!; try done.
  - apply lookup_insert_eq.
  - apply lookup_insert_eq.
  - rewrite length_app. simpl. lia.
  - intros sid' Hne. by rewrite lookup_insert_ne.
  - intros uid' Hne. by rewrite lookup_insert_ne.
Qed.



(** * More on POST /swipe-option *)

Lemma swipeOption_created db req sid uid oid act s :
  swipeFields req sid uid oid act →
  Sessions db !! sid = Some s →
  uid ∈ users s →
  act ∈ ["yes"; "no"] →
  find (fun swipe => bool_decide (userId swipe = uid)) (swipes s) = None →
  swipeOption db req
  = (respond 200
       (SwipesJson "Swipe action recorded successfully" [(oid, act)]),
     savedSession db sid
       (withSwipes (swipes s ++ [ {| userId := uid; optionSwipes := [] |} ]) s)).
Proof.
  intros (E1 & E2 & E3 & E4) Hs Hu Hact Hr. unfold swipeOption.
  rewrite E1, E2, E3, E4, Hs.
  destruct (find _ (users s)) eqn:Hfu;
    [| apply find_user_None in Hfu; done].
  by rewrite (bool_decide_eq_true_2 _ Hact), Hr.
Qed.




Lemma swipe_saved_lookup db sid s' :
  Sessions (savedSession db sid s') !! sid = Some s'.
Proof. apply lookup_insert_eq. Qed.


Lemma find_snoc_None {A} (p : A → bool) (l : list A) (x : A) :
  find p l = None → find p (l ++ [x]) = find p [x].
Proof.
  induction l as [|y l IH]; simpl; [done |].
  destruct (p y); [done | apply IH].
Qed.

Lemma tally_snoc_empty sw uid :
  tally (sw ++ [ {| userId := uid; optionSwipes := [] |} ]) = tally sw.
Proof. unfold tally. by rewrite fold_left_app. Qed.

(** X8. The first swipe of a member who has no swipe record is answered as
    recorded, with the vote in the answer's map, but what is saved is a
    record with an empty vote map: the store holds no vote of the user, and
    the answer of /session-result for the session is the same as before the
    swipe. *)
Theorem first_swipe_not_stored
    (db : Db) (req : SwipeBody) (sid uid oid act : string) (s : Session) :
  swipeFields req sid uid oid act →
  Sessions db !! sid = Some s →
  uid ∈ users s →
  act ∈ ["yes"; "no"] →
  (∀ r, r ∈ swipes s → userId r ≠ uid) →
  ∃ s',
    (swipeOption db req).1
    = respond 200
        (SwipesJson "Swipe action recorded successfully" [(oid, act)]) ∧
    Sessions (swipeOption db req).2 !! sid = Some s' ∧
    swipes s' = (swipes s ++ [ {| userId := uid; optionSwipes := [] |} ])%list ∧
    (∀ o, storedVote uid o s' = None) ∧
    resultOf s' = resultOf s.
Proof.
  intros Hf Hs Hu Hact Hnone.
  pose proof (proj2 (find_swipe_None uid (swipes s)) Hnone) as Hr.
  rewrite (swipeOption_created _ _ _ _ _ _ _ Hf Hs Hu Hact Hr). cbn [fst snd].
  eexists. split; [done |]. split; [apply swipe_saved_lookup |].
  cbn [withSwipes swipes]. split; [done |]. split.
  - intros o. unfold storedVote. cbn [withSwipes swipes].
    rewrite (find_snoc_None _ _ _ Hr). simpl. by rewrite bool_decide_eq_true_2.
  - unfold resultOf. cbn [withSwipes swipes users]. by rewrite tally_snoc_empty.
Qed.

(** ** Swipes and the yes-counts *)

Lemma yesEntries_set_ne o oid v (m : JsMap.t string) :
  o ≠ oid → yesEntries o (JsMap.set oid v m) = yesEntries o m.
Proof.
  intros Hne. induction m as [|[k a] m IH]; cbn [JsMap.set].
  - rewrite yesEntries_cons. rewrite decide_False by (intros [? _]; done).
    done.
  - destruct (decide (k = oid)) as [->|Hk].
    + rewrite !yesEntries_cons.
      by rewrite !decide_False by (intros [? _]; done).
    + by rewrite !yesEntries_cons, IH.
Qed.

Lemma yesEntries_absent o (m : JsMap.t string) :
  o ∉ JsMap.keys m → yesEntries o m = 0.
Proof.
  intros Hnin. apply yesEntries_zero. intros e He [<- _]. apply Hnin.
  apply list_elem_of_fmap. by exists e.
Qed.

(** In a [Map] an option has one entry at most. *)
Lemma yesEntries_wf o (m : JsMap.t string) :
  JsMap.wf m →
  yesEntries o m = if decide (JsMap.get o m = Some "yes") then 1 else 0.
Proof.
  unfold JsMap.wf, JsMap.keys.
  induction m as [|[k a] m IH]; [done |].
  rewrite fmap_cons. intros [Hnin Hnd]%NoDup_cons.
  rewrite yesEntries_cons. cbn [JsMap.get].
  destruct (decide (k = o)) as [->|Hk].
  - rewrite (yesEntries_absent o m Hnin).
    destruct (decide (a = "yes")) as [->|Ha].
    + by rewrite !decide_True.
    + rewrite !decide_False; [done | congruence | by intros [_ ?]].
  - rewrite decide_False by (intros [? _]; done). by rewrite IH.
Qed.

Lemma yesEntries_le_1 o (m : JsMap.t string) :
  JsMap.wf m → (yesEntries o m ≤ 1)%nat.
Proof. intros Hwf. rewrite (yesEntries_wf _ _ Hwf). case_decide; lia. Qed.

Lemma sum_list_insert (l : list nat) i a b :
  l !! i = Some a → sum_list (<[i := b]> l) + a = sum_list l + b.
Proof.
  revert i. induction l as [|x l IH]; intros [|i] Hi; simpl in *; try done.
  - injection Hi as ->. unfold id. lia.
  - specialize (IH _ Hi). unfold id in *. lia.
Qed.

Lemma yesCount_insert o sw i r r' :
  sw !! i = Some r →
  yesCount o (<[i := r']> sw) + yesEntries o (optionSwipes r)
  = yesCount o sw + yesEntries o (optionSwipes r').
Proof.
  intros Hi. unfold yesCount. rewrite list_fmap_insert.
  apply sum_list_insert. by rewrite list_lookup_fmap, Hi.
Qed.

Lemma yesCount_snoc o sw r :
  yesCount o (sw ++ [r]) = yesCount o sw + yesEntries o (optionSwipes r).
Proof.
  unfold yesCount. rewrite fmap_app, sum_list_with_app. simpl. unfold id. lia.
Qed.

(** X9. A successful swipe on one option changes the yes-count of no other
    option. *)
Theorem swipe_keeps_other_counts
    (db : Db) (req : SwipeBody) (sid uid oid act : string) (s : Session) :
  swipeFields req sid uid oid act →
  Sessions db !! sid = Some s →
  uid ∈ users s →
  act ∈ ["yes"; "no"] →
  ∃ s',
    Sessions (swipeOption db req).2 !! sid = Some s' ∧
    ∀ o, o ≠ oid → yesCount o (swipes s') = yesCount o (swipes s).
Proof.
  intros Hf Hs Hu Hact.
  destruct (find (fun swipe => bool_decide (userId swipe = uid)) (swipes s))
    as [r|] eqn:Hr.
  - rewrite (swipeOption_existing _ _ _ _ _ _ _ _ Hf Hs Hu Hact Hr). cbn [snd].
    eexists. split; [apply swipe_saved_lookup |]. cbn [withSwipes swipes].
    intros o Hne.
    destruct (find_swipe_Some _ oid act _ _ Hr) as (i & Hi & _ & _ & ->).
    pose proof (yesCount_insert o _ _ _ (voted oid act r) Hi) as Hc.
    cbn [voted optionSwipes] in Hc.
    rewrite (yesEntries_set_ne _ _ _ _ Hne) in Hc. lia.
  - rewrite (swipeOption_created _ _ _ _ _ _ _ Hf Hs Hu Hact Hr). cbn [snd].
    eexists. split; [apply swipe_saved_lookup |]. cbn [withSwipes swipes].
    intros o _. rewrite yesCount_snoc. unfold yesEntries. simpl. lia.
Qed.


(** * More on GET /session-result *)

(** X11. For a session in the store with a yes vote in the ledger and no
    unanimous option, the answer is the ranked one: status 200, and
    [allResults] holds every option with a yes vote once, with its
    yes-count, in descending order of the counts. *)
Theorem ranked_result (db : Db) (sid : string) (s : Session) :
  sid ≠ "" →
  Sessions db !! sid = Some s →
  ¬ noYesVote (swipes s) →
  ¬ (∃ o, unanimousOption s o) →
  ∃ all,
    (sessionResult db (Some sid)).1
    = respond 200
        (RankedJson "No unanimous decisions; sorted yes swipes provided" all) ∧
    all ≠ [] ∧ NoDup all.*1 ∧
    (∀ o n, (o, n) ∈ all ↔ 0 < n ∧ n = yesCount o (swipes s)) ∧
    StronglySorted descending all.
Proof.
  intros Hsid Hs Hyes Hno.
  rewrite (sessionResult_found _ _ _ Hsid Hs). cbn [fst].
  rewrite (resultOf_not_unanimous _ Hno).
  assert (sortDesc (tally (swipes s)) ≠ []) as Hne.
  { rewrite sortDesc_nil_iff, tally_nil_iff. done. }
  rewrite bool_decide_eq_false_2 by (by rewrite length_zero_iff_nil).
  eexists. split; [reflexivity |]. split_and!; [done | | |].
  - apply sortDesc_keys_NoDup, goodCounts_tally.
  - apply sortDesc_tally_elem.
  - apply sortDesc_strongly_sorted.
Qed.

Lemma yesCount_le_length o sw :
  Forall (fun r => JsMap.wf (optionSwipes r)) sw →
  (yesCount o sw ≤ length sw)%nat.
Proof.
  unfold yesCount. induction 1 as [|r sw Hr Hsw IH]; [simpl; lia |].
  rewrite fmap_cons. cbn [sum_list length].
  pose proof (yesEntries_le_1 o _ Hr). unfold id in *. lia.
Qed.

Lemma yesCount_le_members (s : Session) (o : string) :
  sessionOk s → (yesCount o (swipes s) ≤ length (users s))%nat.
Proof.
  intros (_ & Hnd & Hmem & Hwf).
  etrans; [by apply yesCount_le_length |].
  rewrite <- (length_fmap userId). apply submseteq_length.
  apply NoDup_submseteq; [done |].
  intros x (r & -> & Hr)%list_elem_of_fmap. by apply Hmem.
Qed.

(** X12. For a session that satisfies the store invariant, no count in the
    [allResults] of /session-result exceeds the number of members, and none
    is zero. *)
Theorem result_counts_bounded (db : Db) (sid : string) (s : Session) :
  sid ≠ "" →
  Sessions db !! sid = Some s →
  sessionOk s →
  ∀ o n, (o, n) ∈ allResultsOf (sessionResult db (Some sid)).1 →
         (1 ≤ n)%nat ∧ (n ≤ length (users s))%nat.
Proof.
  intros Hsid Hs Hok o n.
  rewrite (sessionResult_found _ _ _ Hsid Hs). cbn [fst].
  assert ((o, n) ∈ sortDesc (tally (swipes s)) →
          (1 ≤ n)%nat ∧ (n ≤ length (users s))%nat) as Hin.
  { intros [Hpos ->]%sortDesc_tally_elem. split; [lia |].
    by apply yesCount_le_members. }
  unfold resultOf. destruct (bool_decide _); [exact Hin |].
  destruct (bool_decide _); [| exact Hin].
  by intros ?%elem_of_nil.
Qed.

Lemma filter_none {A} (P : A → Prop) `{!∀ x, Decision (P x)} (l : list A) :
  Forall (fun x => ¬ P x) l → filter P l = [].
Proof.
  induction 1 as [|x l Hx Hl IH]; [done |].
  by rewrite filter_cons, decide_False.
Qed.

Lemma filter_all {A} (P : A → Prop) `{!∀ x, Decision (P x)} (l : list A) :
  Forall P l → filter P l = l.
Proof.
  induction 1 as [|x l Hx Hl IH]; [done |].
  by rewrite filter_cons, decide_True, IH.
Qed.

(** A descending list whose counts are at most [n] starts with the entries
    of count [n]. *)
Lemma sorted_top_first n (l : list (string * nat)) :
  StronglySorted descending l →
  Forall (fun e => (e.2 ≤ n)%nat) l →
  l = (filter (fun e => e.2 = n) l ++ filter (fun e => e.2 < n) l)%list.
Proof.
  induction 1 as [|x l Hl IH Hx]; intros Hle; [done |].
  apply Forall_cons in Hle as [Hxn Hle].
  rewrite !filter_cons. destruct (decide (x.2 = n)) as [Heq|Hne].
  - rewrite decide_False by lia. simpl. f_equal. by apply IH.
  - rewrite decide_True by lia.
    assert (Forall (fun e : string * nat => e.2 < n) l) as Hlt.
    { eapply Forall_impl; [exact Hx |]. unfold descending. intros e; lia. }
    rewrite filter_none, filter_all; [done | done |].
    eapply Forall_impl; [exact Hlt |]. intros e; simpl; lia.
Qed.

Lemma filter_count_keys n (l : list (string * nat)) :
  (fun o => (o, n)) <$> (filter (fun e => e.2 = n) l).*1
  = filter (fun e => e.2 = n) l.
Proof.
  induction l as [|[o c] l IH]; [done |].
  rewrite filter_cons. simpl. destruct (decide (c = n)) as [->|Hne]; [| done].
  rewrite !fmap_cons. simpl. by rewrite IH.
Qed.

(** X13. In a session that satisfies the store invariant, a unanimous answer
    lists the unanimous options first: [allResults] begins with the entries
    of [unanimousResults], in the same order and each with the member count,
    and every entry after them has a smaller count. *)
Theorem unanimous_options_first (db : Db) (sid : string) (s : Session) :
  sid ≠ "" →
  Sessions db !! sid = Some s →
  sessionOk s →
  isUnanimous (sessionResult db (Some sid)).1 = true →
  ∃ U rest,
    (sessionResult db (Some sid)).1
    = respond 200
        (UnanimousJson "Unanimous decisions found" U
           (((fun o => (o, length (users s))) <$> U) ++ rest)) ∧
    U ≠ [] ∧
    Forall (fun e => e.2 < length (users s)) rest.
Proof.
  intros Hsid Hs Hok.
  rewrite (sessionResult_found _ _ _ Hsid Hs). cbn [fst].
  destruct (unanimousOption_dec s) as [Hu|Hno].
  - intros _. rewrite (resultOf_unanimous _ Hu).
    set (n := length (users s)). set (t := tally (swipes s)).
    exists (unanimousOf n t), (filter (fun e => e.2 < n) (sortDesc t)).
    split_and!.
    + do 2 f_equal. unfold unanimousOf. rewrite filter_count_keys.
      rewrite <- (sortDesc_stable n t).
      apply sorted_top_first; [apply sortDesc_strongly_sorted |].
      apply Forall_forall. intros [o c] [_ ->]%sortDesc_tally_elem.
      by apply yesCount_le_members.
    + apply unanimousOf_nonempty in Hu. fold n t in Hu.
      destruct (unanimousOf n t); simpl in Hu; [lia | done].
    + apply Forall_forall. by intros e [? _]%list_elem_of_filter.
  - rewrite (resultOf_not_unanimous _ Hno). by destruct (bool_decide _).
Qed.

(** * The store invariants *)












(** ** References between sessions and users *)

Lemma refsOk_join db sid uid s u :
  refsOk db →
  Sessions db !! sid = Some s →
  Users db !! uid = Some u →
  refsOk {| Sessions := <[sid := addUser uid s]> (Sessions db);
            Users := <[uid := addJoined sid u]> (Users db) |}.
Proof.
  intros (R1 & R2 & R3) Hs Hu.
  assert (∀ sid0 s0 x, Sessions db !! sid0 = Some s0 → x ∈ users s0 →
            ∃ s', <[sid := addUser uid s]> (Sessions db) !! sid0 = Some s' ∧
                  createdBy s' = createdBy s0 ∧ x ∈ users s') as Hgrow.
  { intros sid0 s0 x Hs0 Hx. destruct (decide (sid0 = sid)) as [->|Hne].
    - rewrite Hs in Hs0. injection Hs0 as <-. exists (addUser uid s).
      rewrite lookup_insert_eq. split_and!; [done | done |].
      cbn. apply elem_of_app. by left.
    - exists s0. by rewrite lookup_insert_ne. }
  assert (∀ uid0 u0 sid0, Users db !! uid0 = Some u0 →
            sid0 ∈ User.joinedSessions u0 ∨ sid0 ∈ User.createdSessions u0 →
            ∃ u', <[uid := addJoined sid u]> (Users db) !! uid0 = Some u' ∧
                  (sid0 ∈ User.joinedSessions u' ∨ sid0 ∈ User.createdSessions u'))
    as Hugrow.
  { intros uid0 u0 sid0 Hu0 Hin. destruct (decide (uid0 = uid)) as [->|Hne].
    - rewrite Hu in Hu0. injection Hu0 as <-. exists (addJoined sid u).
      rewrite lookup_insert_eq. split; [done |]. cbn.
      destruct Hin as [Hin|Hin]; [left | by right].
      apply elem_of_app. by left.
    - exists u0. by rewrite lookup_insert_ne. }
  unfold refsOk. cbn [Sessions Users]. split_and!.
  - intros uid0 u0 sid0 [[<- <-]|[Hne Hu0]]%lookup_insert_Some Hin.
    + cbn in Hin. apply elem_of_app in Hin as [Hin|Hin].
      * destruct (R1 _ _ _ Hu Hin) as (s0 & Hs0 & Hx).
        destruct (Hgrow _ _ _ Hs0 Hx) as (s' & ? & _ & ?). by exists s'.
      * apply list_elem_of_singleton in Hin as ->. exists (addUser uid s).
        rewrite lookup_insert_eq. split; [done |]. cbn.
        apply elem_of_app. right. by apply list_elem_of_singleton.
    + destruct (R1 _ _ _ Hu0 Hin) as (s0 & Hs0 & Hx).
      destruct (Hgrow _ _ _ Hs0 Hx) as (s' & ? & _ & ?). by exists s'.
  - intros uid0 u0 sid0 Hu0 Hin.
    assert (∃ u1, Users db !! uid0 = Some u1 ∧ sid0 ∈ User.createdSessions u1)
      as (u1 & Hu1 & Hin1).
    { apply lookup_insert_Some in Hu0 as [[<- <-]|[Hne Hu0]]; eauto. }
    destruct (R2 _ _ _ Hu1 Hin1) as (s0 & Hs0 & Hc & Hx).
    destruct (Hgrow _ _ _ Hs0 Hx) as (s' & ? & Hc' & ?). exists s'.
    split_and!; [done | congruence | done].
  - intros sid0 s0 uid0 [[<- <-]|[Hne Hs0]]%lookup_insert_Some Hin.
    + cbn in Hin. apply elem_of_app in Hin as [Hin|Hin].
      * destruct (R3 _ _ _ Hs Hin) as (u0 & Hu0 & Href). by eapply Hugrow.
      * apply list_elem_of_singleton in Hin as ->. exists (addJoined sid u).
        rewrite lookup_insert_eq. split; [done |]. left. cbn.
        apply elem_of_app. right. by apply list_elem_of_singleton.
    + destruct (R3 _ _ _ Hs0 Hin) as (u0 & Hu0 & Href). by eapply Hugrow.
Qed.

Lemma refsOk_swipe db sid s sw :
  refsOk db →
  Sessions db !! sid = Some s →
  refsOk (savedSession db sid (withSwipes sw s)).
Proof.
  intros (R1 & R2 & R3) Hs.
  assert (∀ sid0 s0, Sessions db !! sid0 = Some s0 →
            ∃ s', <[sid := withSwipes sw s]> (Sessions db) !! sid0 = Some s' ∧
                  createdBy s' = createdBy s0 ∧ users s' = users s0) as Hsame.
  { intros sid0 s0 Hs0. destruct (decide (sid0 = sid)) as [->|Hne].
    - rewrite Hs in Hs0. injection Hs0 as <-. exists (withSwipes sw s).
      by rewrite lookup_insert_eq.
    - exists s0. by rewrite lookup_insert_ne. }
  unfold refsOk, savedSession. cbn [Sessions Users]. split_and!.
  - intros uid0 u0 sid0 Hu0 Hin. destruct (R1 _ _ _ Hu0 Hin) as (s0 & Hs0 & Hx).
    destruct (Hsame _ _ Hs0) as (s' & ? & _ & Huu). exists s'. by rewrite Huu.
  - intros uid0 u0 sid0 Hu0 Hin.
    destruct (R2 _ _ _ Hu0 Hin) as (s0 & Hs0 & Hc & Hx).
    destruct (Hsame _ _ Hs0) as (s' & ? & Hcc & Huu). exists s'.
    by rewrite Hcc, Huu.
  - intros sid0 s0 uid0 [[<- <-]|[Hne Hs0]]%lookup_insert_Some Hin.
    + by apply (R3 _ _ _ Hs).
    + by apply (R3 _ _ _ Hs0).
Qed.

Lemma refsOk_createSession db newId uuid t uid u :
  refsOk db →
  Sessions db !! newId = None →
  Users db !! uid = Some u →
  refsOk {| Sessions := <[newId := newSession uuid t uid]> (Sessions db);
            Users := <[uid := addCreated newId u]> (Users db) |}.
Proof.
  intros (R1 & R2 & R3) Hfresh Hu.
  assert (∀ sid0 s0, Sessions db !! sid0 = Some s0 →
            <[newId := newSession uuid t uid]> (Sessions db) !! sid0 = Some s0)
    as Hkeep.
  { intros sid0 s0 Hs0. rewrite lookup_insert_ne; [done |]. congruence. }
  unfold refsOk. cbn [Sessions Users]. split_and!.
  - intros uid0 u0 sid0 Hu0 Hin.
    assert (∃ u1, Users db !! uid0 = Some u1 ∧ sid0 ∈ User.joinedSessions u1)
      as (u1 & Hu1 & Hin1).
    { apply lookup_insert_Some in Hu0 as [[<- <-]|[Hne Hu0]]; eauto. }
    destruct (R1 _ _ _ Hu1 Hin1) as (s0 & Hs0 & Hx). exists s0. auto.
  - intros uid0 u0 sid0 [[<- <-]|[Hne Hu0]]%lookup_insert_Some Hin.
    + cbn in Hin. apply elem_of_app in Hin as [Hin|Hin].
      * destruct (R2 _ _ _ Hu Hin) as (s0 & Hs0 & Hc & Hx). exists s0. auto.
      * apply list_elem_of_singleton in Hin as ->.
        exists (newSession uuid t uid). rewrite lookup_insert_eq.
        split_and!; [done | done |]. cbn. by apply list_elem_of_singleton.
    + destruct (R2 _ _ _ Hu0 Hin) as (s0 & Hs0 & Hc & Hx). exists s0. auto.
  - intros sid0 s0 uid0 [[<- <-]|[Hne Hs0]]%lookup_insert_Some Hin.
    + cbn in Hin. apply list_elem_of_singleton in Hin as ->.
      exists (addCreated newId u). rewrite lookup_insert_eq. split; [done |].
      right. cbn. apply elem_of_app. right. by apply list_elem_of_singleton.
    + destruct (R3 _ _ _ Hs0 Hin) as (u0 & Hu0 & Href).
      destruct (decide (uid0 = uid)) as [->|Hneu].
      * rewrite Hu in Hu0. injection Hu0 as <-. exists (addCreated newId u).
        rewrite lookup_insert_eq. split; [done |]. cbn.
        destruct Href as [?|?]; [by left | right].
        apply elem_of_app. by left.
      * exists u0. by rewrite lookup_insert_ne.
Qed.

Lemma refsOk_createUser db newId uuid name mail :
  refsOk db →
  Users db !! newId = None →
  refsOk {| Sessions := Sessions db;
            Users := <[newId := newUser uuid name mail]> (Users db) |}.
Proof.
  intros (R1 & R2 & R3) Hfresh. unfold refsOk. cbn [Sessions Users]. split_and!.
  - intros uid0 u0 sid0 [[<- <-]|[Hne Hu0]]%lookup_insert_Some Hin.
    + by apply elem_of_nil in Hin.
    + by apply (R1 _ _ _ Hu0).
  - intros uid0 u0 sid0 [[<- <-]|[Hne Hu0]]%lookup_insert_Some Hin.
    + by apply elem_of_nil in Hin.
    + by apply (R2 _ _ _ Hu0).
  - intros sid0 s0 uid0 Hs0 Hin.
    destruct (R3 _ _ _ Hs0 Hin) as (u0 & Hu0 & Href). exists u0.
    rewrite lookup_insert_ne; [done |]. congruence.
Qed.

Lemma serve_refsOk db rt : refsOk db → freshRoute db rt → refsOk (serve db rt).2.
Proof.
  intros Hdb Hfresh.
  destruct rt as [[body|body|q]|newId uuid body|newId uuid body];
    cbn [serve app snd freshRoute] in *.
  - destruct (decide (statusCode (joinSession db body).1 = 200)) as [Hok|Hfail].
    + apply joinSession_200_inv in Hok as (sid & uid & s & u & Hf & Hs & Ho & Hu & Hn).
      rewrite (joinSession_ok _ _ _ _ _ _ Hf Hs Ho Hu Hn). cbn [snd].
      by apply refsOk_join.
    + by rewrite (proj1 (joinSession_failed _ _ Hfail)).
  - destruct (swipeOption_outcome db body); cbn [snd]; try done;
      by apply refsOk_swipe.
  - by rewrite sessionResult_unchanged.
  - unfold createSession.
    destruct (present (create_title body)) as [t|]; [| done].
    destruct (present (create_userId body)) as [uid|]; [| done].
    destruct (Users db !! uid) as [u|] eqn:Hu; [| done]. cbn [snd].
    by apply refsOk_createSession.
  - unfold createUser.
    destruct (present (new_userName body)); [| done].
    destruct (present (new_email body)); [| done].
    destruct (present (new_password body)); [| done].
    destruct (taken _ _ _); [done |]. cbn [snd]. by apply refsOk_createUser.
Qed.

(** X15. The references between the two collections stay consistent: if
    every session a user lists as joined or created exists and has the user
    as a member (and as [createdBy], for a created one), and every member of
    a session is a user who lists the session, then the same holds after any
    sequence of requests in which the creating requests get unused ids. *)
Theorem references_kept (db : Db) (rts : list Route) :
  refsOk db → freshRun db rts → refsOk (run db rts).
Proof.
  unfold run. revert db.
  induction rts as [|rt rts IH]; intros db Hdb Hfresh; [done |].
  destruct Hfresh as [Hrt Hrest]. cbn [fold_left].
  apply IH; [by apply serve_refsOk | done].
Qed.

(** * POST /create-user and POST /create-session *)

Lemma taken_true name mail (us : gmap string User.t) :
  taken name mail us = true ↔
  ∃ i u, us !! i = Some u ∧ (User.userName u = name ∨ User.email u = mail).
Proof.
  unfold taken. rewrite existsb_exists. split.
  - intros (u & Hin & Hp). apply list_elem_of_In in Hin.
    apply list_elem_of_fmap in Hin as ([i u'] & -> & Hin).
    apply elem_of_map_to_list in Hin. exists i, u'. split; [done |].
    apply orb_true_iff in Hp as [Hp|Hp]; apply bool_decide_eq_true in Hp; auto.
  - intros (i & u & Hu & Hp). exists u. split.
    + apply list_elem_of_In, list_elem_of_fmap. exists (i, u).
      split; [done |]. by apply elem_of_map_to_list.
    + apply orb_true_iff.
      destruct Hp as [Hp|Hp]; [left | right]; by apply bool_decide_eq_true.
Qed.

Lemma taken_false name mail (us : gmap string User.t) :
  taken name mail us = false ↔
  ∀ i u, us !! i = Some u → User.userName u ≠ name ∧ User.email u ≠ mail.
Proof.
  rewrite <- not_true_iff_false, taken_true. split.
  - intros Hno i u Hu. split; intros Heq; apply Hno; exists i, u; auto.
  - intros Hall (i & u & Hu & Hp). destruct (Hall i u Hu) as [Hn Hm].
    by destruct Hp.
Qed.

Lemma createUser_ok newId uuid db req name mail pw :
  userFields req name mail pw →
  taken name mail (Users db) = false →
  createUser newId uuid db req
  = (respondCreate 201 (UserCreated "User created successfully" newId name mail),
     {| Sessions := Sessions db;
        Users := <[newId := newUser uuid name mail]> (Users db) |}).
Proof.
  intros (E1 & E2 & E3) Ht. unfold createUser. by rewrite E1, E2, E3, Ht.
Qed.

Lemma createUser_201_inv newId uuid db req :
  createStatus (createUser newId uuid db req).1 = 201 →
  ∃ name mail pw,
    userFields req name mail pw ∧ taken name mail (Users db) = false.
Proof.
  unfold createUser.
  destruct (present (new_userName req)) as [name|] eqn:E1; [| done].
  destruct (present (new_email req)) as [mail|] eqn:E2; [| done].
  destruct (present (new_password req)) as [pw|] eqn:E3; [| done].
  destruct (taken name mail (Users db)) eqn:Ht; [done |]. intros _.
  by exists name, mail, pw.
Qed.

(** X16. A create-user request is answered with 201 exactly when user name,
    email and password are all present and no stored user has that name or
    that email; every other answer is a 400 and leaves the store as it
    was. *)
Theorem create_user_success_iff
    (newId uuid : string) (db : Db) (req : CreateUserBody) :
  (createStatus (createUser newId uuid db req).1 = 201 ↔
   ∃ name mail pw,
     userFields req name mail pw ∧
     ∀ i u, Users db !! i = Some u →
            User.userName u ≠ name ∧ User.email u ≠ mail) ∧
  (createStatus (createUser newId uuid db req).1 ≠ 201 →
   createStatus (createUser newId uuid db req).1 = 400 ∧
   (createUser newId uuid db req).2 = db).
Proof.
  split.
  - split.
    + intros (name & mail & pw & Hf & Ht)%createUser_201_inv.
      exists name, mail, pw. split; [done |]. by apply taken_false.
    + intros (name & mail & pw & Hf & Hfree).
      apply (proj2 (taken_false _ _ _)) in Hfree.
      by rewrite (createUser_ok _ _ _ _ _ _ _ Hf Hfree).
  - unfold createUser.
    destruct (present (new_userName req)); [| done].
    destruct (present (new_email req)); [| done].
    destruct (present (new_password req)); [| done].
    by destruct (taken _ _ _).
Qed.

(** X17. Creating a user is not repeatable: after a create-user request has
    succeeded, a request with the same user name or the same email is
    answered with 400 [Username or email already taken.] and changes
    nothing, whatever its other fields are. *)
Theorem create_user_taken_after
    (newId uuid newId' uuid' : string) (db : Db) (req req' : CreateUserBody)
    (name mail pw name' mail' pw' : string) :
  userFields req name mail pw →
  createStatus (createUser newId uuid db req).1 = 201 →
  userFields req' name' mail' pw' →
  name' = name ∨ mail' = mail →
  createUser newId' uuid' (createUser newId uuid db req).2 req'
  = (respondCreate 400 (CreateError "Username or email already taken."),
     (createUser newId uuid db req).2).
Proof.
  intros Hf Hok (E1 & E2 & E3) Hsame.
  apply createUser_201_inv in Hok as (n & m & p & Hf' & Hfree).
  assert (n = name ∧ m = mail) as [-> ->].
  { destruct Hf as (F1 & F2 & _), Hf' as (G1 & G2 & _). split; congruence. }
  rewrite (createUser_ok _ _ _ _ _ _ _ Hf Hfree). cbn [snd].
  unfold createUser. rewrite E1, E2, E3. cbn [Users].
  assert (taken name' mail'
            (<[newId := newUser uuid name mail]> (Users db)) = true) as ->; [| done].
  apply taken_true. exists newId, (newUser uuid name mail).
  rewrite lookup_insert_eq. split; [done |]. cbn. destruct Hsame; auto.
Qed.

Lemma uniqueUsers_same db ss uid u u' :
  uniqueUsers db →
  Users db !! uid = Some u →
  User.userName u' = User.userName u →
  User.email u' = User.email u →
  uniqueUsers {| Sessions := ss; Users := <[uid := u']> (Users db) |}.
Proof.
  intros Huniq Hu Hn Hm i j a b. cbn [Users].
  intros [[<- <-]|[Hi Ha]]%lookup_insert_Some
         [[<- <-]|[Hj Hb]]%lookup_insert_Some Hp; [done | | |].
  - rewrite Hn, Hm in Hp. by apply (Huniq uid j u b).
  - rewrite Hn, Hm in Hp. by apply (Huniq i uid a u).
  - by apply (Huniq i j a b).
Qed.

Lemma uniqueUsers_new db newId uuid name mail :
  uniqueUsers db →
  taken name mail (Users db) = false →
  uniqueUsers {| Sessions := Sessions db;
                 Users := <[newId := newUser uuid name mail]> (Users db) |}.
Proof.
  intros Huniq Hfree i j a b. cbn [Users].
  pose proof (proj1 (taken_false _ _ _) Hfree) as Hno. clear Hfree.
  rename Hno into Hfree.
  intros [[<- <-]|[Hi Ha]]%lookup_insert_Some
         [[<- <-]|[Hj Hb]]%lookup_insert_Some Hp; [done | | |].
  - destruct (Hfree j b Hb) as [Hn Hm]. cbn in Hp. destruct Hp; congruence.
  - destruct (Hfree i a Ha) as [Hn Hm]. cbn in Hp. destruct Hp; congruence.
  - by apply (Huniq i j a b).
Qed.

Lemma serve_uniqueUsers db rt : uniqueUsers db → uniqueUsers (serve db rt).2.
Proof.
  intros Hdb.
  destruct rt as [[body|body|q]|newId uuid body|newId uuid body];
    cbn [serve app snd] in *.
  - destruct (decide (statusCode (joinSession db body).1 = 200)) as [Hok|Hfail].
    + apply joinSession_200_inv in Hok as (sid & uid & s & u & Hf & Hs & Ho & Hu & Hn).
      rewrite (joinSession_ok _ _ _ _ _ _ Hf Hs Ho Hu Hn). cbn [snd].
      by apply (uniqueUsers_same db _ uid u).
    + by rewrite (proj1 (joinSession_failed _ _ Hfail)).
  - destruct (swipeOption_outcome db body); cbn [snd]; done.
  - by rewrite sessionResult_unchanged.
  - unfold createSession.
    destruct (present (create_title body)) as [t|]; [| done].
    destruct (present (create_userId body)) as [uid|]; [| done].
    destruct (Users db !! uid) as [u|] eqn:Hu; [| done]. cbn [snd].
    by apply (uniqueUsers_same db _ uid u).
  - unfold createUser.
    destruct (present (new_userName body)); [| done].
    destruct (present (new_email body)); [| done].
    destruct (present (new_password body)); [| done].
    destruct (taken _ _ _) eqn:Ht; [done |]. cbn [snd].
    by apply uniqueUsers_new.
Qed.

(** X18. User names and emails stay unique: if no two stored users share a
    name or an email, the same holds after any sequence of requests. *)
Theorem users_unique_kept (db : Db) (rts : list Route) :
  uniqueUsers db → uniqueUsers (run db rts).
Proof.
  unfold run. revert db.
  induction rts as [|rt rts IH]; intros db Hdb; [done |].
  cbn [fold_left]. by apply IH, serve_uniqueUsers.
Qed.

Lemma createSession_ok newId uuid db req t uid u :
  sessionFields req t uid →
  Users db !! uid = Some u →
  createSession newId uuid db req
  = (respondCreate 201
       (SessionCreated "Session was created successfully" newId
          (newSession uuid t uid) ("http://localhost:3000/join/" +:+ uuid)),
     {| Sessions := <[newId := newSession uuid t uid]> (Sessions db);
        Users := <[uid := addCreated newId u]> (Users db) |}).
Proof.
  intros [E1 E2] Hu. unfold createSession. by rewrite E1, E2, Hu.
Qed.


(** X20. A successful create-session stores, under the new id, a Pending
    session with the given title whose only member and creator is the
    requesting user, with no options and no swipes; the invite link ends in
    the session's [sessionId]; the user's [createdSessions] grows by the new
    id and nothing else of the user changes; every other session and user is
    as before. *)
Theorem create_session_effect
    (newId uuid : string) (db : Db) (req : CreateSessionBody)
    (t uid : string) (u : User.t) :
  sessionFields req t uid →
  Users db !! uid = Some u →
  ∃ s' u',
    (createSession newId uuid db req).1
    = respondCreate 201
        (SessionCreated "Session was created successfully" newId s'
           ("http://localhost:3000/join/" +:+ sessionId s')) ∧
    Sessions (createSession newId uuid db req).2 !! newId = Some s' ∧
    Users (createSession newId uuid db req).2 !! uid = Some u' ∧
    status s' = Pending ∧ users s' = [uid] ∧ createdBy s' = Some uid ∧
    title s' = t ∧ sessionId s' = uuid ∧ options s' = [] ∧ swipes s' = [] ∧
    User.createdSessions u' = (User.createdSessions u ++ [newId])%list ∧
    User.joinedSessions u' = User.joinedSessions u ∧
    User.userName u' = User.userName u ∧ User.email u' = User.email u ∧
    (∀ sid, sid ≠ newId →
       Sessions (createSession newId uuid db req).2 !! sid = Sessions db !! sid) ∧
    (∀ uid', uid' ≠ uid →
       Users (createSession newId uuid db req).2 !! uid' = Users db !! uid').
Proof.
  intros Hf Hu. rewrite (createSession_ok _ _ _ _ _ _ _ Hf Hu). cbn [fst snd].
  exists (newSession uuid t uid), (addCreated newId u). cbn.
  split_and!; try done.
  - apply lookup_insert_eq.
  - apply lookup_insert_eq.
  - intros sid Hne. by rewrite lookup_insert_ne.
  - intros uid' Hne. by rewrite lookup_insert_ne.
Qed.


(** * Joining and the result *)

(** X22. A join resets unanimity: in a session that satisfies the store
    invariant, right after a user has joined no option is unanimous and the
    answer of /session-result is not the unanimous one, whatever it was
    before. *)
Theorem join_resets_unanimity
    (db : Db) (req : JoinBody) (sid uid : string) (s : Session) (u : User.t) :
  joinFields req sid uid →
  Sessions db !! sid = Some s →
  openStatus (status s) →
  Users db !! uid = Some u →
  uid ∉ users s →
  sessionOk s →
  isUnanimous (sessionResult (joinSession db req).2 (Some sid)).1 = false ∧
  ∀ o, ¬ unanimousOption (addUser uid s) o.
Proof.
  intros Hf Hs Hopen Hu Hnin Hok.
  assert (sid ≠ "") as Hsid.
  { destruct Hf as [E _]. by destruct (join_sessionId req) as [[|]|]; simplify_eq/=. }
  assert (∀ o, ¬ unanimousOption (addUser uid s) o) as Hnone.
  { intros o [_ Heq]. cbn [addUser swipes users] in Heq.
    pose proof (yesCount_le_members s o Hok) as Hle.
    rewrite length_app in Heq. simpl in Heq. lia. }
  split; [| done].
  rewrite (joinSession_ok _ _ _ _ _ _ Hf Hs Hopen Hu Hnin). cbn [snd].
  erewrite sessionResult_found; [| done | apply lookup_insert_eq]. cbn [fst].
  rewrite resultOf_not_unanimous by (intros [o Ho]; by apply (Hnone o)).
  by destruct (bool_decide _).
Qed.

(** * Worked instances of the further properties *)

Ltac by_decide :=
  match goal with
  | |- ?P => apply (bool_decide_unpack P); vm_compute; exact I
  end.

Lemma dinnerSession_ok : sessionOk dinnerSession.
Proof.
  unfold sessionOk. split_and!.
  - by_decide.
  - by_decide.
  - intros r Hr. repeat (apply elem_of_cons in Hr as [->|Hr]; [by_decide |]).
    by apply elem_of_nil in Hr.
  - repeat constructor; by_decide.
Qed.

Lemma lunchSession_ok : sessionOk lunchSession.
Proof.
  unfold sessionOk. split_and!; [by_decide | by_decide | | constructor].
  by intros r ?%elem_of_nil.
Qed.


Lemma emptyDb_refs : refsOk emptyDb.
Proof.
  split_and!; intros ? ? ? H; cbn in H; by rewrite lookup_empty in H.
Qed.

Lemma emptyDb_unique : uniqueUsers emptyDb.
Proof. intros i j u v H. cbn in H. by rewrite lookup_empty in H. Qed.

Example teaTime_result :
  (sessionResult (run emptyDb teaTime) (Some tea)).1
  = respond 200
      (UnanimousJson "Unanimous decisions found" ["scones"] [("scones", 1)]).
Proof. vm_compute. reflexivity. Qed.

Lemma join_success_effect_witness :
  ∃ s' u',
    Sessions (joinSession exampleDb (joinReq lunch bob)).2 !! lunch = Some s' ∧
    Users (joinSession exampleDb (joinReq lunch bob)).2 !! bob = Some u' ∧
    users s' = [alice; bob] ∧
    User.joinedSessions u' = [lunch].
Proof.
  destruct (join_success_effect exampleDb (joinReq lunch bob) lunch bob
              lunchSession (mkUser "bob"))
    as (s' & u' & H1 & H2 & _ & H4 & _ & _ & _ & _ & _ & _ & _ & H12 & _).
  - split; reflexivity.
  - vm_compute; reflexivity.
  - split; discriminate.
  - vm_compute; reflexivity.
  - by_decide.
  - by exists s', u'.
Defined.





Lemma first_swipe_not_stored_witness :
  ∃ s',
    (swipeOption exampleDb (swipeReq lunch alice "A" "yes")).1
    = respond 200
        (SwipesJson "Swipe action recorded successfully" [("A", "yes")]) ∧
    Sessions (swipeOption exampleDb (swipeReq lunch alice "A" "yes")).2 !! lunch
    = Some s' ∧
    swipes s'
    = (swipes lunchSession ++ [ {| userId := alice; optionSwipes := [] |} ])%list ∧
    (∀ o, storedVote alice o s' = None) ∧
    resultOf s' = resultOf lunchSession.
Proof.
  apply (first_swipe_not_stored exampleDb (swipeReq lunch alice "A" "yes")
           lunch alice "A" "yes" lunchSession).
  - repeat split.
  - vm_compute; reflexivity.
  - by_decide.
  - by_decide.
  - by intros r ?%elem_of_nil.
Defined.

Lemma swipe_keeps_other_counts_witness :
  ∃ s',
    Sessions (swipeOption exampleDb (swipeReq dinner bob "B" "yes")).2 !! dinner
    = Some s' ∧
    ∀ o, o ≠ "B" → yesCount o (swipes s') = yesCount o (swipes dinnerSession).
Proof.
  apply (swipe_keeps_other_counts exampleDb (swipeReq dinner bob "B" "yes")
           dinner bob "B" "yes" dinnerSession).
  - repeat split.
  - vm_compute; reflexivity.
  - by_decide.
  - by_decide.
Defined.


Lemma ranked_result_witness :
  ∃ all,
    (sessionResult exampleDb (Some picnic)).1
    = respond 200
        (RankedJson "No unanimous decisions; sorted yes swipes provided" all) ∧
    all ≠ [] ∧ NoDup all.*1 ∧
    (∀ o n, (o, n) ∈ all ↔ 0 < n ∧ n = yesCount o (swipes picnicSession)) ∧
    StronglySorted descending all.
Proof.
  apply (ranked_result exampleDb picnic picnicSession).
  - discriminate.
  - vm_compute; reflexivity.
  - rewrite <- tally_nil_iff. vm_compute. discriminate.
  - rewrite <- unanimousOf_nonempty. vm_compute. lia.
Defined.

Lemma result_counts_bounded_witness :
  (1 ≤ 2)%nat ∧ (2 ≤ length (users dinnerSession))%nat.
Proof.
  apply (result_counts_bounded exampleDb dinner dinnerSession) with (o := "A").
  - discriminate.
  - vm_compute; reflexivity.
  - apply dinnerSession_ok.
  - by_decide.
Defined.

Lemma unanimous_options_first_witness :
  ∃ U rest,
    (sessionResult exampleDb (Some dinner)).1
    = respond 200
        (UnanimousJson "Unanimous decisions found" U
           (((fun o => (o, length (users dinnerSession))) <$> U) ++ rest)) ∧
    U ≠ [] ∧
    Forall (fun e => e.2 < length (users dinnerSession)) rest.
Proof.
  apply (unanimous_options_first exampleDb dinner dinnerSession).
  - discriminate.
  - vm_compute; reflexivity.
  - apply dinnerSession_ok.
  - vm_compute; reflexivity.
Defined.


Lemma references_kept_witness : refsOk (run emptyDb teaTime).
Proof.
  apply (references_kept emptyDb teaTime); [apply emptyDb_refs |].
  cbn [teaTime freshRun freshRoute].
  split; [vm_compute; reflexivity |]. split; [vm_compute; reflexivity |]. done.
Defined.

Lemma users_unique_kept_witness : uniqueUsers (run emptyDb teaTime).
Proof. apply (users_unique_kept emptyDb teaTime), emptyDb_unique. Defined.

Lemma create_user_taken_after_witness :
  createUser carol "0c0ffee0-0000-4000-8000-00000000000c"
    (createUser dave "0c0ffee0-0000-4000-8000-00000000000d" emptyDb
       (createUserReq "dave" "dave@example.com" "secret")).2
    (createUserReq "david" "dave@example.com" "hunter2")
  = (respondCreate 400 (CreateError "Username or email already taken."),
     (createUser dave "0c0ffee0-0000-4000-8000-00000000000d" emptyDb
        (createUserReq "dave" "dave@example.com" "secret")).2).
Proof.
  apply (create_user_taken_after dave _ carol _ emptyDb
           (createUserReq "dave" "dave@example.com" "secret")
           (createUserReq "david" "dave@example.com" "hunter2")
           "dave" "dave@example.com" "secret"
           "david" "dave@example.com" "hunter2").
  - repeat split.
  - vm_compute; reflexivity.
  - repeat split.
  - by right.
Defined.

Lemma create_session_effect_witness :
  ∃ s' u',
    Sessions (createSession tea "0c0ffee0-0000-4000-8000-0000000000e0"
                exampleDb (createSessionReq "Tea" alice)).2 !! tea = Some s' ∧
    Users (createSession tea "0c0ffee0-0000-4000-8000-0000000000e0"
             exampleDb (createSessionReq "Tea" alice)).2 !! alice = Some u' ∧
    status s' = Pending ∧ users s' = [alice] ∧
    User.createdSessions u' = [tea].
Proof.
  destruct (create_session_effect tea "0c0ffee0-0000-4000-8000-0000000000e0"
              exampleDb (createSessionReq "Tea" alice) "Tea" alice
              (mkUser "alice"))
    as (s' & u' & _ & H2 & H3 & H4 & H5 & _ & _ & _ & _ & _ & H11 & _).
  - split; reflexivity.
  - vm_compute; reflexivity.
  - by exists s', u'.
Defined.


Lemma join_resets_unanimity_witness :
  isUnanimous (sessionResult (joinSession exampleDb (joinReq lunch bob)).2
                 (Some lunch)).1 = false.
Proof.
  destruct (join_resets_unanimity exampleDb (joinReq lunch bob) lunch bob
              lunchSession (mkUser "bob")) as [H _].
  - split; reflexivity.
  - vm_compute; reflexivity.
  - split; discriminate.
  - vm_compute; reflexivity.
  - by_decide.
  - apply lunchSession_ok.
  - exact H.
Defined.



Lemma create_user_success_iff_witness :
  createStatus
    (createUser dave "0c0ffee0-0000-4000-8000-00000000000d" exampleDb
       (createUserReq "alice" "other@example.com" "secret")).1 = 400 ∧
  (createUser dave "0c0ffee0-0000-4000-8000-00000000000d" exampleDb
     (createUserReq "alice" "other@example.com" "secret")).2 = exampleDb.
Proof.
  apply (proj2 (create_user_success_iff dave
                  "0c0ffee0-0000-4000-8000-00000000000d" exampleDb
                  (createUserReq "alice" "other@example.com" "secret"))).
  vm_compute. discriminate.
Defined.

